(** * Notification delivery path of the task-management backend

    Shallow embedding of
    - [app/services/notification_service.py] ([ConnectionManager],
      [NotificationService]),
    - [app/models/notification.py] ([NotificationType], [Notification]),
    - [app/schemas/notification.py] ([NotificationCreate]),
    - the notification endpoints of [app/api/v1/notifications.py] and
      [get_current_user_ws] of [app/api/deps/__init__.py].

    Python [int] is [Z]; a timezone-aware [datetime] is its number of
    microseconds since the epoch, a [Z]; a dict is a [gmap]; a [set] is a
    [gset]; a table with a primary key is a [gmap] from the key to the row.
    Coroutines are run to completion one after the other: an [await] is a
    call. *)

From stdpp Require Import gmap strings list fin_maps sorting pretty.
From Stdlib Require Import ZArith.

Local Open Scope Z_scope.

(** ** Exceptions and the computation monad *)

(** Every error below derives from Python's [Exception], which is what the
    handler [except Exception] of [send_personal_message] catches. *)
Inductive exn : Type :=
| DBAPIError (code : Z)          (* the store refused an operation *)
| InvalidRequestError            (* refresh of a row that is gone *)
| TransportError                 (* a send on a socket that takes no frame *)
| WebSocketDisconnect            (* the peer closed the live channel *)
| ValueError                     (* int() of a malformed literal *)
| HTTPException (status_code : Z) (detail : string).

Inductive Res (A : Type) : Type :=
| Ok (a : A)
| Raise (e : exn).
Arguments Ok {A} a.
Arguments Raise {A} e.

(** A computation over a state [S]: it returns or raises, and leaves a state. *)
Definition M (S A : Type) : Type := S → Res A * S.

Definition ret {S A} (a : A) : M S A := λ s, (Ok a, s).

Definition raise {S A} (e : exn) : M S A := λ s, (Raise e, s).

Definition bind {S A B} (m : M S A) (k : A → M S B) : M S B :=
  λ s, match m s with
       | (Ok a, s') => k a s'
       | (Raise e, s') => (Raise e, s')
       end.

Definition gets {S A} (f : S → A) : M S A := λ s, (Ok (f s), s).

Definition modify {S} (f : S → S) : M S unit := λ s, (Ok tt, f s).

Notation "x <~ m ;; k" := (bind m (λ x, k))
  (at level 100, m at next level, right associativity).
Notation "m ;;; k" := (bind m (λ _, k))
  (at level 100, right associativity).

(** [try: m  except Exception: pass] *)
Definition try_pass {S} (m : M S unit) : M S unit :=
  λ s, match m s with
       | (Ok _, s') => (Ok tt, s')
       | (Raise _, s') => (Ok tt, s')
       end.

(** [for x in l: body(x)] *)
Fixpoint for_each {S A} (l : list A) (body : A → M S unit) : M S unit :=
  match l with
  | [] => ret tt
  | x :: l' => body x ;;; for_each l' body
  end.

(** ** Data model: [app/models/notification.py] *)

Inductive NotificationType : Type :=
| TASK_ASSIGNED | TASK_UPDATED | TASK_COMPLETED | TASK_DUE_SOON
| TASK_OVERDUE | TEAM_INVITED | TEAM_REMOVED | COMMENT_ADDED
| MENTION | SYSTEM.

(** [NotificationType.value] *)
Definition value (t : NotificationType) : string :=
  match t with
  | TASK_ASSIGNED => "task_assigned"
  | TASK_UPDATED => "task_updated"
  | TASK_COMPLETED => "task_completed"
  | TASK_DUE_SOON => "task_due_soon"
  | TASK_OVERDUE => "task_overdue"
  | TEAM_INVITED => "team_invited"
  | TEAM_REMOVED => "team_removed"
  | COMMENT_ADDED => "comment_added"
  | MENTION => "mention"
  | SYSTEM => "system"
  end.

Record Notification : Type := mkNotification {
  id : Z;
  user_id : Z;
  type : NotificationType;
  title : string;
  message : string;
  related_task_id : option Z;
  related_team_id : option Z;
  is_read : bool;
  created_at : Z;
  read_at : option Z }.

(** [app/schemas/notification.py] *)
Record NotificationCreate : Type := mkNotificationCreate {
  nc_user_id : Z;
  nc_type : NotificationType;
  nc_title : string;
  nc_message : string;
  nc_related_task_id : option Z;
  nc_related_team_id : option Z }.

(** The only columns of [User] this code reads. *)
Record User : Type := mkUser {
  u_id : Z;
  u_is_active : bool }.

(** ** The live channel: messages and sockets *)

(** The [data] dict built by [_send_notification]. *)
Record PushData : Type := mkPushData {
  pd_id : Z;
  pd_type : string;
  pd_title : string;
  pd_message : string;
  pd_related_task_id : option Z;
  pd_related_team_id : option Z;
  pd_created_at : Z }.

(** The [message] dict: [{"type": ..., "data": ...}]. *)
Record Message : Type := mkMessage {
  msg_type : string;
  msg_data : PushData }.

Inductive Frame : Type :=
| JsonFrame (m : Message)
| TextFrame (s : string).

Inductive Inbound : Type :=
| Text (s : string)
| PeerClosed.

(** A connection handle stands for the identity of a [WebSocket] object. *)
Definition conn : Type := nat.

(** What the transport knows of one WebSocket: the query parameters of its
    opening request, whether the handshake was accepted, the close frame sent
    if any, the frames sent so far (oldest first), the frames the peer will
    send, and whether the transport still takes a frame ([send_json] and
    [send_text] raise when it does not). *)
Record Socket : Type := mkSocket {
  query_params : gmap string string;
  accepted : bool;
  close_frame : option (Z * string);
  outbox : list Frame;
  inbox : list Inbound;
  writable : bool }.

(** A handle the transport has no entry for is a newly opened socket. *)
Definition new_socket : Socket :=
  mkSocket ∅ false None [] [] true.

(** ** The store: an [AsyncSession] on the database *)

Inductive DbOp : Type := OpExecute | OpFlush | OpRefresh.

(** [notifications] and [users] are the two tables, by primary key;
    [notifications_seq] is the next value of the id sequence; [fault] tells,
    per kind of operation, whether the store raises instead of doing it. *)
Record Session : Type := mkSession {
  notifications : gmap Z Notification;
  notifications_seq : Z;
  users : gmap Z User;
  fault : DbOp → option exn }.

(** ** The process: the module-level [manager], the transport, the store *)

Record World : Type := mkWorld {
  active_connections : gmap Z (gset conn);
  sockets : gmap conn Socket;
  db : Session }.

Definition set_active_connections (f : gmap Z (gset conn) → gmap Z (gset conn))
    (w : World) : World :=
  mkWorld (f (active_connections w)) (sockets w) (db w).

Definition set_sockets (f : gmap conn Socket → gmap conn Socket)
    (w : World) : World :=
  mkWorld (active_connections w) (f (sockets w)) (db w).

Definition set_notifications (f : gmap Z Notification → gmap Z Notification)
    (w : World) : World :=
  mkWorld (active_connections w) (sockets w)
    (mkSession (f (notifications (db w))) (notifications_seq (db w))
       (users (db w)) (fault (db w))).

Definition set_notifications_seq (z : Z) (w : World) : World :=
  mkWorld (active_connections w) (sockets w)
    (mkSession (notifications (db w)) z (users (db w)) (fault (db w))).

(** [ConnectionManager.__init__]: an empty [defaultdict(set)]. *)
Definition init_manager (w : World) : World :=
  set_active_connections (λ _, ∅) w.

(** ** Transport operations *)

Definition socket_of (w : World) (c : conn) : Socket :=
  default new_socket (sockets w !! c).

Definition update_socket (c : conn) (f : Socket → Socket) : M World unit :=
  modify (λ w, set_sockets (λ ss, <[c := f (socket_of w c)]> ss) w).

(** [await websocket.accept()] *)
Definition ws_accept (c : conn) : M World unit :=
  update_socket c (λ s,
    mkSocket (query_params s) true (close_frame s) (outbox s) (inbox s)
      (writable s)).

(** [await websocket.close(code=..., reason=...)] *)
Definition ws_close (c : conn) (code : Z) (reason : string) : M World unit :=
  update_socket c (λ s,
    mkSocket (query_params s) (accepted s) (Some (code, reason)) (outbox s)
      (inbox s) false).

Definition push_frame (f : Frame) (s : Socket) : Socket :=
  mkSocket (query_params s) (accepted s) (close_frame s) (outbox s ++ [f])
    (inbox s) (writable s).

Definition ws_send (c : conn) (f : Frame) : M World unit :=
  w <~ gets (λ w, w) ;;
  if writable (socket_of w c)
  then update_socket c (push_frame f)
  else raise TransportError.

(** [await connection.send_json(message)] *)
Definition send_json (c : conn) (m : Message) : M World unit :=
  ws_send c (JsonFrame m).

(** [await websocket.send_text(s)] *)
Definition send_text (c : conn) (s : string) : M World unit :=
  ws_send c (TextFrame s).

(** ** [ConnectionManager] *)

Module ConnectionManager.

(** [self.active_connections[user_id]] on a [defaultdict(set)]: a missing key
    is first stored with an empty set. *)
Definition getitem (u : Z) : M World (gset conn) :=
  w <~ gets (λ w, w) ;;
  match active_connections w !! u with
  | Some s => ret s
  | None =>
      modify (set_active_connections (λ r, <[u := ∅]> r)) ;;;
      ret ∅
  end.

(** The set is mutated in place: the key keeps holding the updated set. *)
Definition store_set (u : Z) (s : gset conn) : M World unit :=
  modify (set_active_connections (λ r, <[u := s]> r)).

Definition connect (websocket : conn) (u : Z) : M World unit :=
  ws_accept websocket ;;;
  s <~ getitem u ;;
  store_set u (s ∪ {[websocket]}).

Definition disconnect (websocket : conn) (u : Z) : M World unit :=
  s <~ getitem u ;;
  store_set u (s ∖ {[websocket]}) ;;;
  s' <~ getitem u ;;
  if decide (s' = ∅)
  then modify (set_active_connections (λ r, delete u r))
  else ret tt.

Definition send_personal_message (m : Message) (u : Z) : M World unit :=
  w <~ gets (λ w, w) ;;
  match active_connections w !! u with
  | Some s => for_each (elements s) (λ c, try_pass (send_json c m))
  | None => ret tt
  end.

Definition broadcast (m : Message) : M World unit :=
  w <~ gets (λ w, w) ;;
  for_each (elements (dom (active_connections w)))
    (λ u, send_personal_message m u).

End ConnectionManager.

(** ** Store operations used by the services *)

(** Every round trip to the store first consults [fault]. *)
Definition db_io (op : DbOp) : M World unit :=
  w <~ gets (λ w, w) ;;
  match fault (db w) op with
  | Some e => raise e
  | None => ret tt
  end.

(** The rows of the [notifications] table. *)
Definition rows (w : World) : list Notification :=
  (map_to_list (notifications (db w))).*2.

(** [self.db.add(notification); await self.db.flush()]: [add] only stages the
    object, [flush] writes the INSERT; the primary key comes from the
    sequence, [is_read] and [created_at] from the column defaults, [read_at]
    is NULL. The new primary key is what [flush] leaves in [notification.id]. *)
Definition new_notification (nid now : Z) (d : NotificationCreate)
    : Notification :=
  mkNotification nid (nc_user_id d) (nc_type d) (nc_title d) (nc_message d)
    (nc_related_task_id d) (nc_related_team_id d) false now None.

Definition db_insert (now : Z) (d : NotificationCreate) : M World Z :=
  db_io OpFlush ;;;
  w <~ gets (λ w, w) ;;
  let nid := notifications_seq (db w) in
  modify (set_notifications (λ t, <[nid := new_notification nid now d]> t)) ;;;
  modify (set_notifications_seq (nid + 1)) ;;;
  ret nid.

(** Attribute assignments on a loaded object followed by
    [await self.db.flush()]: the UPDATE of the row with the object's key. *)
Definition db_update (n : Notification) : M World unit :=
  db_io OpFlush ;;;
  modify (set_notifications (λ t, <[id n := n]> t)).

(** [await self.db.delete(notification); await self.db.flush()] *)
Definition db_delete (n : Notification) : M World unit :=
  db_io OpFlush ;;;
  modify (set_notifications (λ t, delete (id n) t)).

(** [await self.db.refresh(notification)]: reload the row by its key. *)
Definition db_refresh (nid : Z) : M World Notification :=
  db_io OpRefresh ;;;
  w <~ gets (λ w, w) ;;
  match notifications (db w) !! nid with
  | Some n => ret n
  | None => raise InvalidRequestError
  end.

(** ** [NotificationService] *)

(** [Notification.user_id == user_id, Notification.is_read == False] *)
Definition owned_unread (u : Z) (n : Notification) : Prop :=
  user_id n = u ∧ is_read n = false.

Global Instance owned_unread_dec u n : Decision (owned_unread u n).
Proof. unfold owned_unread. apply _. Defined.

(** The WHERE clause of [get_user_notifications]. *)
Definition listed (u : Z) (unread_only : bool) (n : Notification) : Prop :=
  user_id n = u ∧ (unread_only = true → is_read n = false).

Global Instance listed_dec u b n : Decision (listed u b n).
Proof. unfold listed. apply _. Defined.

(** [ORDER BY created_at DESC] *)
Definition newest_first (a b : Notification) : Prop :=
  created_at b ≤ created_at a.

Global Instance newest_first_dec a b : Decision (newest_first a b).
Proof. unfold newest_first. apply _. Defined.

(** [.values(is_read=True, read_at=...)] on one row *)
Definition set_read (now : Z) (n : Notification) : Notification :=
  mkNotification (id n) (user_id n) (type n) (title n) (message n)
    (related_task_id n) (related_team_id n) true (created_at n) (Some now).

(** Python's [sub in s] on strings. *)
Fixpoint contains (sub s : string) : bool :=
  String.prefix sub s ||
  match s with
  | EmptyString => false
  | String _ s' => contains sub s'
  end.

Definition dquote : string := String (Ascii.ascii_of_nat 34%nat) EmptyString.

Module NotificationService.

Definition _send_notification (notification : Notification) : M World unit :=
  let message :=
    mkMessage "notification"
      (mkPushData (id notification) (value (type notification))
         (title notification) (message notification)
         (related_task_id notification) (related_team_id notification)
         (created_at notification)) in
  ConnectionManager.send_personal_message message (user_id notification).

(** [now] is what the clock reads when the row is written. *)
Definition create (now : Z) (notification_data : NotificationCreate)
    : M World Notification :=
  nid <~ db_insert now notification_data ;;
  notification <~ db_refresh nid ;;
  _send_notification notification ;;;
  ret notification.

Definition get_by_id (notification_id : Z) : M World (option Notification) :=
  db_io OpExecute ;;;
  gets (λ w, notifications (db w) !! notification_id).

(** The count query, then the page query. [page] and [page_size] are the
    validated query parameters ([page >= 1], [1 <= page_size <= 100]). Rows
    with equal [created_at] come in the order of the merge sort. *)
Definition get_user_notifications (u : Z) (unread_only : bool)
    (page page_size : Z) : M World (list Notification * Z) :=
  w <~ gets (λ w, w) ;;
  let query := filter (listed u unread_only) (rows w) in
  db_io OpExecute ;;;
  let total := Z.of_nat (length query) in
  let offset := (page - 1) * page_size in
  db_io OpExecute ;;;
  let notifications :=
    take (Z.to_nat page_size)
      (drop (Z.to_nat offset) (merge_sort newest_first query)) in
  ret (notifications, total).

Definition mark_as_read (now : Z) (notification_id u : Z)
    : M World (option Notification) :=
  found <~ get_by_id notification_id ;;
  match found with
  | None => ret None
  | Some notification =>
      if decide (user_id notification ≠ u) then ret None
      else
        db_update (set_read now notification) ;;;
        notification <~ db_refresh (id notification) ;;
        ret (Some notification)
  end.

(** The bulk UPDATE; [result.rowcount] is the number of rows matched. *)
Definition mark_all_as_read (now : Z) (u : Z) : M World Z :=
  db_io OpExecute ;;;
  w <~ gets (λ w, w) ;;
  let rowcount := Z.of_nat (length (filter (owned_unread u) (rows w))) in
  modify (set_notifications (λ t,
    (λ n, if decide (owned_unread u n) then set_read now n else n) <$> t)) ;;;
  db_io OpFlush ;;;
  ret rowcount.

Definition delete (notification_id u : Z) : M World bool :=
  found <~ get_by_id notification_id ;;
  match found with
  | None => ret false
  | Some notification =>
      if decide (user_id notification ≠ u) then ret false
      else db_delete notification ;;; ret true
  end.

Definition get_unread_count (u : Z) : M World Z :=
  db_io OpExecute ;;;
  gets (λ w, Z.of_nat (length (filter (owned_unread u) (rows w)))).

Definition notify_task_assigned (now : Z) (task_id : Z) (task_title : string)
    (assignee_id : Z) (assigner_name : string) : M World Notification :=
  create now
    (mkNotificationCreate assignee_id TASK_ASSIGNED "New Task Assigned"
       (String.append assigner_name
          (String.append " assigned you to task "
             (String.append dquote (String.append task_title dquote))))
       (Some task_id) None).

Definition notify_team_invited (now : Z) (team_id : Z) (team_name : string)
    (u : Z) (inviter_name : string) : M World Notification :=
  create now
    (mkNotificationCreate u TEAM_INVITED "Team Invitation"
       (String.append inviter_name
          (String.append " added you to team "
             (String.append dquote (String.append team_name dquote))))
       None (Some team_id)).

Definition notify_task_updated (now : Z) (task_id : Z) (task_title : string)
    (u : Z) (updater_name : string) : M World Notification :=
  create now
    (mkNotificationCreate u TASK_UPDATED "Task Updated"
       (String.append updater_name
          (String.append " updated task "
             (String.append dquote (String.append task_title dquote))))
       (Some task_id) None).

Definition notify_task_completed (now : Z) (task_id : Z) (task_title : string)
    (u : Z) (completer_name : string) : M World Notification :=
  create now
    (mkNotificationCreate u TASK_COMPLETED "Task Completed"
       (String.append completer_name
          (String.append " completed task "
             (String.append dquote (String.append task_title dquote))))
       (Some task_id) None).

End NotificationService.

(** ** [UserService.get_by_id] *)

Module UserService.

Definition get_by_id (n : Z) : M World (option User) :=
  db_io OpExecute ;;;
  gets (λ w, users (db w) !! n).

End UserService.

(** ** Endpoints of [app/api/v1/notifications.py] *)

Module Api.

Definition not_found : exn := HTTPException 404 "Notification not found".

(** [PATCH /{notification_id}/read]; [current_user] is the authenticated
    caller the dependency resolved. *)
Definition mark_as_read (now : Z) (notification_id : Z) (current_user : User)
    : M World Notification :=
  notification <~
    NotificationService.mark_as_read now notification_id (u_id current_user) ;;
  match notification with
  | None => raise not_found
  | Some n => ret n
  end.

(** [DELETE /{notification_id}] *)
Definition delete_notification (notification_id : Z) (current_user : User)
    : M World string :=
  success <~ NotificationService.delete notification_id (u_id current_user) ;;
  if success : bool
  then ret "Notification deleted successfully"
  else raise not_found.

(** [PaginatedResponse] of [app/schemas/common.py] *)
Record PaginatedResponse : Type := mkPaginatedResponse {
  items : list Notification;
  total : Z;
  page : Z;
  page_size : Z;
  total_pages : Z }.

(** The listing endpoint [GET /]; the query parameters arrive validated ([page >= 1],
    [1 <= page_size <= 100]); [//] is floor division. *)
Definition list_notifications (page page_size : Z) (unread_only : bool)
    (current_user : User) : M World PaginatedResponse :=
  r <~ NotificationService.get_user_notifications (u_id current_user)
         unread_only page page_size ;;
  let notifications := r.1 in
  let total := r.2 in
  let total_pages := (total + page_size - 1) `div` page_size in
  ret (mkPaginatedResponse notifications total page page_size total_pages).

(** [GET /unread-count]: the dict [{"count": count}]. *)
Definition get_unread_count (current_user : User) : M World (gmap string Z) :=
  count <~ NotificationService.get_unread_count (u_id current_user) ;;
  ret {[ "count" := count ]}.

(** [POST /mark-all-read]: the message of the [MessageResponse]; the
    f-string prints [count] in decimal. *)
Definition mark_all_as_read (now : Z) (current_user : User) : M World string :=
  count <~ NotificationService.mark_all_as_read now (u_id current_user) ;;
  ret (String.append "Marked "
         (String.append (pretty count) " notifications as read")).

Section LiveChannel.

(** [app.core.security.decode_token] is not part of the sources at hand: it
    maps a token to its claims, or to [None] when the token does not verify.
    [py_int] is the builtin [int] on a [str]; [None] is its [ValueError]. *)
Variable decode_token : string → option (gmap string string).
Variable py_int : string → option Z.

(** [app/api/deps/__init__.py] *)
Definition get_current_user_ws (websocket : conn) : M World (option User) :=
  w <~ gets (λ w, w) ;;
  match query_params (socket_of w websocket) !! "token" with
  | None => ret None
  | Some token =>
      if decide (token = EmptyString) then ret None
      else
        match decode_token token with
        | None => ret None
        | Some payload =>
            match payload !! "sub" with
            | None => ret None
            | Some sub =>
                match py_int sub with
                | None => raise ValueError
                | Some n => UserService.get_by_id n
                end
            end
        end
  end.

(** [data = await websocket.receive_text()]: the next frame of the peer
    leaves the inbox. *)
Definition pop_inbox (c : conn) : M World unit :=
  update_socket c (λ s,
    mkSocket (query_params s) (accepted s) (close_frame s) (outbox s)
      (tail (inbox s)) (writable s)).

(** The [while True] loop over the frames the peer sends; with no frame left
    the handler stays suspended in [receive_text]. *)
Fixpoint receive_loop (websocket : conn) (u : Z) (frames : list Inbound)
    : M World unit :=
  match frames with
  | [] => ret tt
  | Text data :: rest =>
      pop_inbox websocket ;;;
      (if decide (data = "ping") then send_text websocket "pong" else ret tt) ;;;
      receive_loop websocket u rest
  | PeerClosed :: _ =>
      pop_inbox websocket ;;;
      ConnectionManager.disconnect websocket u
  end.

Definition websocket_endpoint (websocket : conn) : M World unit :=
  w <~ gets (λ w, w) ;;
  let token := query_params (socket_of w websocket) !! "token" in
  if decide (token = None ∨ token = Some EmptyString)
  then ws_close websocket 4001 "Missing token"
  else
    user <~ get_current_user_ws websocket ;;
    match user with
    | None => ws_close websocket 4001 "Invalid token"
    | Some user =>
        ConnectionManager.connect websocket (u_id user) ;;;
        w <~ gets (λ w, w) ;;
        receive_loop websocket (u_id user) (inbox (socket_of w websocket))
    end.

End LiveChannel.

End Api.

(** ** Dependencies of [app/api/deps/__init__.py] *)

Module Deps.

Section Tokens.

Variable decode_token : string → option (gmap string string).
Variable py_int : string → option Z.

(** The [headers] of the exception are not part of [exn]. *)
Definition credentials_exception : exn :=
  HTTPException 401 "Could not validate credentials".

Definition get_current_user (token : string) : M World User :=
  match decode_token token with
  | None => raise credentials_exception
  | Some payload =>
      let user_id := payload !! "sub" in
      let token_type := payload !! "type" in
      match user_id with
      | None => raise credentials_exception
      | Some sub =>
          if decide (token_type ≠ Some "access")
          then raise credentials_exception
          else
            match py_int sub with
            | None => raise ValueError
            | Some n =>
                user <~ UserService.get_by_id n ;;
                match user with
                | None => raise credentials_exception
                | Some user =>
                    if u_is_active user then ret user
                    else raise (HTTPException 401 "User account is disabled")
                end
            end
      end
  end.

Definition get_current_active_user (current_user : User) : M World User :=
  if u_is_active current_user then ret current_user
  else raise (HTTPException 401 "Inactive user").

(** [try: ... except HTTPException: return None] *)
Definition get_optional_current_user (token : option string)
    : M World (option User) :=
  match token with
  | None => ret None
  | Some t =>
      if decide (t = EmptyString) then ret None
      else λ w,
        match get_current_user t w with
        | (Ok user, w') => (Ok (Some user), w')
        | (Raise (HTTPException _ _), w') => (Ok None, w')
        | (Raise e, w') => (Raise e, w')
        end
  end.

End Tokens.

End Deps.

(** ** Sequences of calls on the Connection Registry *)

Inductive RegistryCall : Type :=
| Connect (websocket : conn) (u : Z)
| Disconnect (websocket : conn) (u : Z)
| SendToUser (m : Message) (u : Z)
| Broadcast (m : Message).

Definition call (op : RegistryCall) : M World unit :=
  match op with
  | Connect c u => ConnectionManager.connect c u
  | Disconnect c u => ConnectionManager.disconnect c u
  | SendToUser m u => ConnectionManager.send_personal_message m u
  | Broadcast m => ConnectionManager.broadcast m
  end.

(** The state a newly built manager reaches after the calls of [ops]. *)
Definition after_calls (ops : list RegistryCall) (w : World) : World :=
  (for_each ops call (init_manager w)).2.

(** No key of the registry holds an empty set. *)
Definition no_empty_entry (w : World) : Prop :=
  ∀ u s, active_connections w !! u = Some s → s ≠ ∅.

(** The set of live connections of [u]; none when [u] is not a key. *)
Definition connections_of (w : World) (u : Z) : gset conn :=
  default ∅ (active_connections w !! u).

(** The registry [disconnect] leaves: the handle is discarded from the
    user's set and the key goes with the last handle. *)
Definition registry_after_disconnect (c : conn) (u : Z)
    (r : gmap Z (gset conn)) : gmap Z (gset conn) :=
  let s' := default ∅ (r !! u) ∖ {[c]} in
  if decide (s' = ∅) then delete u r else <[u := s']> r.

(** What one delivery attempt leaves of a socket. *)
Definition delivered (m : Message) (s : Socket) : Socket :=
  if writable s then push_frame (JsonFrame m) s else s.

(** ** Conditions on the store *)

(** The store serves every operation. *)
Definition store_up (w : World) : Prop :=
  ∀ op, fault (db w) op = None.

(** The id sequence is ahead of every primary key in use. *)
Definition fresh_seq (w : World) : Prop :=
  map_Forall (λ k _, k < notifications_seq (db w)) (notifications (db w)).

Global Instance fresh_seq_dec w : Decision (fresh_seq w).
Proof. unfold fresh_seq. apply _. Defined.

(** The [id] column of a row is its primary key. *)
Definition keys_are_ids (w : World) : Prop :=
  map_Forall (λ k n, id n = k) (notifications (db w)).

Global Instance keys_are_ids_dec w : Decision (keys_are_ids w).
Proof. unfold keys_are_ids. apply _. Defined.

(** The bulk UPDATE on one row. *)
Definition bulk_read (now u : Z) (n : Notification) : Notification :=
  if decide (owned_unread u n) then set_read now n else n.

(** The message [_send_notification] pushes for a row. *)
Definition push_of (n : Notification) : Message :=
  mkMessage "notification"
    (mkPushData (id n) (value (type n)) (title n) (message n)
       (related_task_id n) (related_team_id n) (created_at n)).

(** The socket state a rejected handshake is left in. *)
Definition rejected (reason : string) (s : Socket) : Socket :=
  mkSocket (query_params s) (accepted s) (Some (4001, reason)) (outbox s)
    (inbox s) false.

(** ** Credentials of a live-connection request *)

Section Credentials.

Variable decode_token : string → option (gmap string string).
Variable py_int : string → option Z.

(** The request has no [token] query parameter, or an empty one. *)
Definition missing_credential (w : World) (c : conn) : Prop :=
  query_params (socket_of w c) !! "token" = None ∨
  query_params (socket_of w c) !! "token" = Some EmptyString.

(** The request has a token that resolves to no user: the token does not
    decode, or its claims have no subject, or the subject is the id of no
    row of [users] (the store answering the lookup). *)
Definition invalid_credential (w : World) (c : conn) : Prop :=
  ∃ t, query_params (socket_of w c) !! "token" = Some t ∧ t ≠ EmptyString ∧
    (decode_token t = None ∨
     ∃ payload, decode_token t = Some payload ∧
       (payload !! "sub" = None ∨
        ∃ sub n, payload !! "sub" = Some sub ∧ py_int sub = Some n ∧
          fault (db w) OpExecute = None ∧ users (db w) !! n = None)).

(** The defect of the request's credential and the reason it is closed with. *)
Definition credential_defect (w : World) (c : conn) (reason : string) : Prop :=
  (missing_credential w c ∧ reason = "Missing token") ∨
  (invalid_credential w c ∧ reason = "Invalid token").

End Credentials.

(** ** The reading of mark-all-read that asks for a nonzero first count *)

Definition nonzero_then_zero (now1 now2 u : Z) (w : World) : Prop :=
  ∃ k w1 w2,
    NotificationService.mark_all_as_read now1 u w = (Ok k, w1) ∧
    k ≠ 0 ∧
    NotificationService.mark_all_as_read now2 u w1 = (Ok 0, w2).

(** ** Sample worlds *)

(** A store that is up, with no row yet. *)
Definition empty_store : Session :=
  mkSession ∅ 1 ∅ (λ _, None).

Definition quiet_world : World :=
  mkWorld ∅ ∅ empty_store.

(** User 7 has a read and an unread notification, user 8 an unread one. *)
Definition row1 : Notification :=
  mkNotification 1 7 TASK_UPDATED "Task Updated" "bob updated it" (Some 5)
    None true 10 (Some 20).

Definition row2 : Notification :=
  mkNotification 2 7 SYSTEM "Maintenance" "tonight" None None false 30 None.

Definition row3 : Notification :=
  mkNotification 3 8 MENTION "Mention" "carol mentioned you" None None false
    40 None.

Definition sample_store : Session :=
  mkSession (<[1 := row1]> (<[2 := row2]> (<[3 := row3]> ∅))) 4
    (<[7 := mkUser 7 true]> (<[8 := mkUser 8 true]> ∅))
    (λ _, None).

(** User 7 has two live connections; the transport of handle 1 is dead. *)
Definition sample_world : World :=
  mkWorld
    (<[7 := {[1%nat; 2%nat]}]> ∅)
    (<[1%nat := mkSocket ∅ true None [] [] false]>
       (<[2%nat := mkSocket ∅ true None [] [] true]> ∅))
    sample_store.

(** A new request on handle 9 with the query string [?token=forged]. *)
Definition forged_request : World :=
  mkWorld ∅
    (<[9%nat := mkSocket (<["token" := "forged"]> ∅) false None [] [] true]> ∅)
    sample_store.

(** A decoder that verifies no token. *)
Definition reject_all (token : string) : option (gmap string string) := None.

(** No literal is an integer. *)
Definition no_int (s : string) : option Z := None.

Definition sample_create : NotificationCreate :=
  mkNotificationCreate 7 TEAM_INVITED "Team Invitation" "dave added you"
    None (Some 3).

Definition sample_message : Message :=
  push_of row2.

(** The sample world with a store whose flush raises. *)
Definition flush_down_world : World :=
  mkWorld (active_connections sample_world) (sockets sample_world)
    (mkSession (notifications sample_store) 4 (users sample_store)
       (λ op, match op with OpFlush => Some (DBAPIError 53) | _ => None end)).

(** ** Further notions used by the properties below *)

(** How many users have the handle [c] registered. *)
Definition fan_in (w : World) (c : conn) : nat :=
  length (filter (λ u, c ∈ connections_of w u)
            (elements (dom (active_connections w)))).

(** What [k] delivery attempts leave of a socket. *)
Definition delivered_times (k : nat) (m : Message) (s : Socket) : Socket :=
  if writable s
  then mkSocket (query_params s) (accepted s) (close_frame s)
         (outbox s ++ replicate k (JsonFrame m)) (inbox s) (writable s)
  else s.







(** What a convenience constructor is to return: a stored, unread row of
    the given kind, title, owner and related ids, created at [now], whose
    message has the actor's name and the entity's name in it. *)
Definition helper_result (res : Res Notification * World)
    (kind : NotificationType) (ttl : string) (u now : Z)
    (task team : option Z) (actor entity : string) : Prop :=
  ∃ r w', res = (Ok r, w') ∧
    notifications (db w') !! id r = Some r ∧
    type r = kind ∧ title r = ttl ∧ user_id r = u ∧
    related_task_id r = task ∧ related_team_id r = team ∧
    is_read r = false ∧ read_at r = None ∧ created_at r = now ∧
    contains actor (message r) = true ∧
    contains entity (message r) = true.



Section Resolution.

Variable decode_token : string → option (gmap string string).
Variable py_int : string → option Z.

(** The request on handle [c] carries a token that decodes to the id of
    the row [user] of [users], the store answering the lookup. *)
Definition resolves (w : World) (c : conn) (user : User) : Prop :=
  ∃ t payload sub n,
    query_params (socket_of w c) !! "token" = Some t ∧ t ≠ EmptyString ∧
    decode_token t = Some payload ∧ payload !! "sub" = Some sub ∧
    py_int sub = Some n ∧
    fault (db w) OpExecute = None ∧ users (db w) !! n = Some user.

End Resolution.

(** ** More sample worlds *)

(** A decoder that knows two tokens of user 7: an access token and a
    refresh token. *)
Definition sample_decode (token : string) : option (gmap string string) :=
  if decide (token = "good")
  then Some (<["sub" := "7"]> (<["type" := "access"]> ∅))
  else if decide (token = "renew")
  then Some (<["sub" := "7"]> (<["type" := "refresh"]> ∅))
  else None.

(** [int] on the one literal the sample tokens carry. *)
Definition sample_int (s : string) : option Z :=
  if decide (s = "7") then Some 7 else None.

(** A new request on handle 9 with an access token; the peer will send two
    probes and another text, then close. *)
Definition good_request : World :=
  mkWorld (<[7 := {[1%nat]}]> ∅)
    (<[9%nat := mkSocket (<["token" := "good"]> ∅) false None []
                  [Text "ping"; Text "hello"; Text "ping"; PeerClosed] true]> ∅)
    sample_store.

(** The same request with the refresh token. *)
Definition renew_request : World :=
  mkWorld ∅
    (<[9%nat := mkSocket (<["token" := "renew"]> ∅) false None [] [] true]> ∅)
    sample_store.


(** Page 1 of user 7's listing in the sample store, one item a page. *)
Definition sample_page : Api.PaginatedResponse :=
  Api.mkPaginatedResponse [row2] 2 1 1 2.

(** * Proofs *)

Ltac mrun := unfold bind, ret, gets, modify, raise; simpl.

Lemma world_eta w : mkWorld (active_connections w) (sockets w) (db w) = w.
Proof. by destruct w. Qed.

Lemma connect_spec c u w :
  ConnectionManager.connect c u w =
  (Ok tt,
   mkWorld (<[u := connections_of w u ∪ {[c]}]> (active_connections w))
     (<[c := mkSocket (query_params (socket_of w c)) true
               (close_frame (socket_of w c)) (outbox (socket_of w c))
               (inbox (socket_of w c)) (writable (socket_of w c))]> (sockets w))
     (db w)).
Proof.
  unfold ConnectionManager.connect, ConnectionManager.getitem,
    ConnectionManager.store_set, ws_accept, update_socket, connections_of.
  mrun. destruct (active_connections w !! u) as [s|] eqn:Hu; mrun.
  - done.
  - unfold set_active_connections, set_sockets. simpl.
    by rewrite insert_insert_eq.
Qed.

Lemma disconnect_spec c u w :
  ConnectionManager.disconnect c u w =
  (Ok tt, set_active_connections (registry_after_disconnect c u) w).
Proof.
  unfold ConnectionManager.disconnect, ConnectionManager.getitem,
    ConnectionManager.store_set, registry_after_disconnect,
    set_active_connections.
  mrun. destruct (active_connections w !! u) as [s|] eqn:Hu; mrun.
  - rewrite lookup_insert_eq, ?Hu. mrun.
    destruct (decide (s ∖ {[c]} = ∅)); mrun; [|done].
    by rewrite delete_insert_eq.
  - rewrite insert_insert_eq, lookup_insert_eq, ?Hu. mrun.
    rewrite empty_difference_L.
    rewrite decide_True by done. mrun. by rewrite delete_insert_eq.
Qed.

Lemma try_send_spec m c w :
  ∃ w1, try_pass (send_json c m) w = (Ok tt, w1) ∧
    active_connections w1 = active_connections w ∧ db w1 = db w ∧
    ∀ c', socket_of w1 c' =
          if decide (c' = c) then delivered m (socket_of w c)
          else socket_of w c'.
Proof.
  unfold try_pass, send_json, ws_send, update_socket, delivered. mrun.
  destruct (writable (socket_of w c)) eqn:Hw; mrun.
  - eexists. split_and!; try done. intros c'. unfold socket_of at 1. simpl.
    destruct (decide (c' = c)) as [->|Hne].
    + by rewrite lookup_insert_eq.
    + by rewrite lookup_insert_ne.
  - exists w. split_and!; try done. intros c'.
    by destruct (decide (c' = c)) as [->|Hne].
Qed.

Lemma send_loop_spec m (l : list conn) w :
  NoDup l →
  ∃ w', for_each l (λ c, try_pass (send_json c m)) w = (Ok tt, w') ∧
    active_connections w' = active_connections w ∧ db w' = db w ∧
    ∀ c, socket_of w' c =
         if decide (c ∈ l) then delivered m (socket_of w c) else socket_of w c.
Proof.
  revert w. induction l as [|c0 l IH]; intros w Hnd.
  - exists w. by split_and!.
  - apply NoDup_cons in Hnd as [Hc0 Hnd]. simpl. unfold bind at 1.
    destruct (try_send_spec m c0 w) as (w1 & -> & Hreg1 & Hdb1 & Hs1).
    destruct (IH w1 Hnd) as (w' & -> & Hreg & Hdb & Hs).
    exists w'. split; [done|]. split_and!; [congruence..|].
    intros c. rewrite Hs, !Hs1.
    destruct (decide (c = c0)) as [->|Hne].
    + rewrite decide_False by done.
      by rewrite decide_True by apply list_elem_of_here.
    + destruct (decide (c ∈ l)).
      * by rewrite decide_True by by apply list_elem_of_further.
      * rewrite decide_False; [done|]. by apply not_elem_of_cons.
Qed.

Lemma send_personal_message_spec m u w :
  ∃ w', ConnectionManager.send_personal_message m u w = (Ok tt, w') ∧
    active_connections w' = active_connections w ∧ db w' = db w ∧
    ∀ c, socket_of w' c =
         if decide (c ∈ connections_of w u) then delivered m (socket_of w c)
         else socket_of w c.
Proof.
  unfold ConnectionManager.send_personal_message, connections_of. mrun.
  destruct (active_connections w !! u) as [s|] eqn:Hu; simpl.
  - destruct (send_loop_spec m (elements s) w (NoDup_elements s))
      as (w' & Hrun & Hreg & Hdb & Hs).
    exists w'. split_and!; try done. intros c. rewrite Hs.
    destruct (decide (c ∈ s)).
    + by rewrite decide_True by by apply elem_of_elements.
    + rewrite decide_False; [done|]. by rewrite elem_of_elements.
  - exists w. by split_and!.
Qed.

Lemma broadcast_loop_spec m (us : list Z) w :
  ∃ w', for_each us (λ u, ConnectionManager.send_personal_message m u) w
        = (Ok tt, w') ∧
    active_connections w' = active_connections w ∧ db w' = db w.
Proof.
  revert w. induction us as [|u us IH]; intros w; simpl.
  - by exists w.
  - unfold bind at 1.
    destruct (send_personal_message_spec m u w) as (w1 & -> & Hreg1 & Hdb1 & _).
    destruct (IH w1) as (w' & -> & Hreg & Hdb).
    exists w'. split_and!; congruence.
Qed.

Lemma call_registry op w :
  ∃ w', call op w = (Ok tt, w') ∧
    active_connections w' =
      match op with
      | Connect c u =>
          <[u := connections_of w u ∪ {[c]}]> (active_connections w)
      | Disconnect c u => registry_after_disconnect c u (active_connections w)
      | SendToUser _ _ | Broadcast _ => active_connections w
      end.
Proof.
  destruct op as [c u|c u|m u|m]; simpl.
  - rewrite connect_spec. by eexists.
  - rewrite disconnect_spec. by eexists.
  - destruct (send_personal_message_spec m u w) as (w' & -> & Hreg & _).
    by exists w'.
  - unfold ConnectionManager.broadcast. mrun.
    destruct (broadcast_loop_spec m (elements (dom (active_connections w))) w)
      as (w' & -> & Hreg & _).
    by exists w'.
Qed.

Lemma registry_after_disconnect_lookup c u r v :
  registry_after_disconnect c u r !! v =
  if decide (v = u)
  then (if decide (default ∅ (r !! u) ∖ {[c]} = ∅) then None
        else Some (default ∅ (r !! u) ∖ {[c]}))
  else r !! v.
Proof.
  unfold registry_after_disconnect. simpl.
  destruct (decide (default ∅ (r !! u) ∖ {[c]} = ∅));
    destruct (decide (v = u)) as [->|Hne].
  - apply lookup_delete_eq.
  - by apply lookup_delete_ne.
  - apply lookup_insert_eq.
  - by apply lookup_insert_ne.
Qed.

Lemma call_keeps_no_empty_entry op w w' :
  call op w = (Ok tt, w') → no_empty_entry w → no_empty_entry w'.
Proof.
  intros Hcall Hinv.
  destruct (call_registry op w) as (w2 & Hrun & Hreg).
  rewrite Hrun in Hcall. injection Hcall as ->.
  intros v s. rewrite Hreg. destruct op as [c u|c u|m u|m]; [| |apply Hinv..].
  - destruct (decide (v = u)) as [->|Hne].
    + rewrite lookup_insert_eq. intros [= <-] Hempty.
      apply (not_elem_of_empty (C:=gset conn) c). rewrite <- Hempty.
      by apply elem_of_union_r, elem_of_singleton.
    + rewrite lookup_insert_ne by done. apply Hinv.
  - rewrite registry_after_disconnect_lookup.
    destruct (decide (v = u)) as [->|Hne]; [|apply Hinv].
    destruct (decide (default ∅ (active_connections w !! u) ∖ {[c]} = ∅));
      [done|]. by intros [= <-].
Qed.

Lemma for_each_calls_invariant ops w :
  no_empty_entry w →
  ∃ w', for_each ops call w = (Ok tt, w') ∧ no_empty_entry w'.
Proof.
  revert w. induction ops as [|op ops IH]; intros w Hinv; simpl.
  - by exists w.
  - unfold bind at 1. destruct (call_registry op w) as (w1 & Hrun & _).
    rewrite Hrun. apply IH. by eapply call_keeps_no_empty_entry.
Qed.

(** C1. Registry garbage collection: whatever calls a new manager has
    served, none of its keys holds an empty connection set; and when the
    handle a user disconnects is the only one the user has, the user is no
    longer a key afterwards. *)
Theorem registry_garbage_collection (ops : list RegistryCall) (w0 : World) :
  no_empty_entry (after_calls ops w0) ∧
  ∀ c u,
    active_connections
      (ConnectionManager.disconnect c u (after_calls ops w0)).2 !! u =
    if decide (connections_of (after_calls ops w0) u ⊆ {[c]}) then None
    else Some (connections_of (after_calls ops w0) u ∖ {[c]}).
Proof.
  split.
  - unfold after_calls.
    assert (no_empty_entry (init_manager w0)) as H0.
    { intros u s. unfold init_manager. simpl. by rewrite lookup_empty. }
    by destruct (for_each_calls_invariant ops _ H0) as (w' & -> & H).
  - intros c u. rewrite disconnect_spec. simpl.
    rewrite registry_after_disconnect_lookup, decide_True by done.
    fold (connections_of (after_calls ops w0) u).
    generalize (connections_of (after_calls ops w0) u). intros s.
    destruct (decide (s ∖ {[c]} = ∅)) as [He|Hne].
    + by rewrite decide_True by by apply empty_difference_subseteq_L.
    + rewrite decide_False; [done|]. intros Hsub.
      by apply Hne, subseteq_empty_difference_L.
Qed.

(** C2. Fan-out with failure isolation: [send_personal_message] returns
    normally whatever the sockets do; the registry is as before; every handle
    registered for the user whose socket takes the frame has the message
    appended to what it was sent, whether or not other handles of the user
    raise; every other socket is as before. *)
Theorem fan_out_failure_isolation (m : Message) (u : Z) (w : World) :
  ∃ w', ConnectionManager.send_personal_message m u w = (Ok tt, w') ∧
    active_connections w' = active_connections w ∧
    ∀ c, socket_of w' c =
         if decide (c ∈ connections_of w u ∧ writable (socket_of w c) = true)
         then push_frame (JsonFrame m) (socket_of w c)
         else socket_of w c.
Proof.
  destruct (send_personal_message_spec m u w) as (w' & Hrun & Hreg & _ & Hs).
  exists w'. split_and!; try done. intros c. rewrite Hs. unfold delivered.
  destruct (decide (c ∈ connections_of w u)) as [Hin|Hout].
  - destruct (writable (socket_of w c)) eqn:Hw.
    + by rewrite decide_True.
    + rewrite decide_False; [done|]. by intros [_ ?].
  - rewrite decide_False; [done|]. by intros [? _].
Qed.

(** ** The store *)

Lemma db_io_up op w : fault (db w) op = None → db_io op w = (Ok tt, w).
Proof. intros H. unfold db_io. mrun. by rewrite H. Qed.

Lemma db_io_down op w e : fault (db w) op = Some e → db_io op w = (Raise e, w).
Proof. intros H. unfold db_io. mrun. by rewrite H. Qed.

Lemma elem_of_rows w n :
  n ∈ rows w ↔ ∃ k, notifications (db w) !! k = Some n.
Proof.
  unfold rows. rewrite list_elem_of_fmap. split.
  - intros [[k n'] [-> Hin]]. exists k. by apply elem_of_map_to_list.
  - intros [k Hk]. exists (k, n). split; [done|]. by apply elem_of_map_to_list.
Qed.

Lemma rows_insert_fresh w k n :
  notifications (db w) !! k = None →
  rows (set_notifications (λ t, <[k := n]> t) w) ≡ₚ n :: rows w.
Proof.
  intros Hk. unfold rows. simpl. by rewrite map_to_list_insert.
Qed.

Lemma rows_fmap w (f : Notification → Notification) :
  rows (set_notifications (λ t, f <$> t) w) ≡ₚ f <$> rows w.
Proof.
  unfold rows. simpl. rewrite map_to_list_fmap.
  rewrite <- !list_fmap_compose. done.
Qed.

Lemma bulk_read_not_unread now u n : ¬ owned_unread u (bulk_read now u n).
Proof.
  unfold bulk_read. destruct (decide (owned_unread u n)) as [H|H]; [|done].
  unfold owned_unread. simpl. by intros [_ ?].
Qed.

Lemma filter_bulk_read now u (l : list Notification) :
  filter (owned_unread u) (bulk_read now u <$> l) = [].
Proof.
  induction l as [|n l IH]; [done|]. simpl.
  rewrite filter_cons_False by apply bulk_read_not_unread. done.
Qed.

(** The world once the INSERT of [create] is written. *)
Lemma db_insert_up now d w :
  fault (db w) OpFlush = None →
  db_insert now d w =
  (Ok (notifications_seq (db w)),
   set_notifications_seq (notifications_seq (db w) + 1)
     (set_notifications
        (λ t, <[notifications_seq (db w) :=
                  new_notification (notifications_seq (db w)) now d]> t) w)).
Proof.
  intros Hf. unfold db_insert. unfold bind at 1. by rewrite db_io_up.
Qed.

Lemma create_up now d w :
  fault (db w) OpFlush = None → fault (db w) OpRefresh = None →
  ∃ w', NotificationService.create now d w
        = (Ok (new_notification (notifications_seq (db w)) now d), w') ∧
    db w' = mkSession
      (<[notifications_seq (db w) :=
           new_notification (notifications_seq (db w)) now d]>
         (notifications (db w)))
      (notifications_seq (db w) + 1) (users (db w)) (fault (db w)) ∧
    active_connections w' = active_connections w ∧
    ∀ c, socket_of w' c =
         if decide (c ∈ connections_of w (nc_user_id d))
         then delivered
                (push_of (new_notification (notifications_seq (db w)) now d))
                (socket_of w c)
         else socket_of w c.
Proof.
  intros Hflush Hrefresh. unfold NotificationService.create.
  unfold bind at 1. rewrite db_insert_up by done.
  set (nid := notifications_seq (db w)). set (r := new_notification nid now d).
  set (w1 := set_notifications_seq _ _).
  unfold bind at 1, db_refresh. unfold bind at 1.
  rewrite db_io_up by done. mrun. rewrite lookup_insert_eq.
  unfold NotificationService._send_notification.
  change (mkMessage _ _) with (push_of r).
  destruct (send_personal_message_spec (push_of r) (user_id r) w1)
    as (w' & Hrun & Hreg & Hdb & Hs).
  rewrite Hrun. exists w'. split_and!; done.
Qed.

Lemma send_personal_message_no_connection m u w :
  active_connections w !! u = None →
  ConnectionManager.send_personal_message m u w = (Ok tt, w).
Proof.
  intros Hu. unfold ConnectionManager.send_personal_message. mrun.
  by rewrite Hu.
Qed.

Lemma create_no_connection now d w :
  fault (db w) OpFlush = None → fault (db w) OpRefresh = None →
  active_connections w !! nc_user_id d = None →
  NotificationService.create now d w =
  (Ok (new_notification (notifications_seq (db w)) now d),
   set_notifications_seq (notifications_seq (db w) + 1)
     (set_notifications
        (λ t, <[notifications_seq (db w) :=
                  new_notification (notifications_seq (db w)) now d]> t) w)).
Proof.
  intros Hflush Hrefresh Hnone. unfold NotificationService.create.
  unfold bind at 1. rewrite db_insert_up by done.
  unfold bind at 1, db_refresh. unfold bind at 1.
  rewrite db_io_up by done. mrun. rewrite lookup_insert_eq.
  unfold NotificationService._send_notification.
  by rewrite send_personal_message_no_connection.
Qed.

Lemma create_flush_down now d w e :
  fault (db w) OpFlush = Some e →
  NotificationService.create now d w = (Raise e, w).
Proof.
  intros Hflush. unfold NotificationService.create, db_insert.
  unfold bind at 1 2. by rewrite (db_io_down _ _ e).
Qed.

Lemma create_refresh_down now d w e :
  fault (db w) OpFlush = None → fault (db w) OpRefresh = Some e →
  NotificationService.create now d w =
  (Raise e,
   set_notifications_seq (notifications_seq (db w) + 1)
     (set_notifications
        (λ t, <[notifications_seq (db w) :=
                  new_notification (notifications_seq (db w)) now d]> t) w)).
Proof.
  intros Hflush Hrefresh. unfold NotificationService.create.
  unfold bind at 1. rewrite db_insert_up by done.
  unfold bind at 1, db_refresh. unfold bind at 1.
  by rewrite (db_io_down _ _ e).
Qed.

(** C5. [create] is not best-effort on its persistence half. When the flush
    raises, [create] raises the same error and leaves the world as it found
    it: no row, no push. When the flush succeeds the row is in the table,
    and, the refresh succeeding too, [create] returns it whatever the
    sockets of the user do; if the refresh raises, that error propagates
    and no socket was written to. *)
Theorem create_persists_or_propagates (now : Z) (d : NotificationCreate)
    (w : World) :
  match fault (db w) OpFlush with
  | Some e => NotificationService.create now d w = (Raise e, w)
  | None =>
      ∃ w', notifications (db w') !! notifications_seq (db w)
            = Some (new_notification (notifications_seq (db w)) now d) ∧
        match fault (db w) OpRefresh with
        | Some e =>
            NotificationService.create now d w = (Raise e, w') ∧
            sockets w' = sockets w
        | None =>
            NotificationService.create now d w
            = (Ok (new_notification (notifications_seq (db w)) now d), w')
        end
  end.
Proof.
  destruct (fault (db w) OpFlush) as [e|] eqn:Hflush.
  - by apply create_flush_down.
  - destruct (fault (db w) OpRefresh) as [e|] eqn:Hrefresh.
    + eexists. split; [|split; [by apply create_refresh_down|done]].
      simpl. apply lookup_insert_eq.
    + destruct (create_up now d w Hflush Hrefresh) as (w' & Hrun & Hdb & _).
      exists w'. split; [|done]. rewrite Hdb. simpl. apply lookup_insert_eq.
Qed.

Lemma get_unread_count_up u w :
  fault (db w) OpExecute = None →
  NotificationService.get_unread_count u w =
  (Ok (Z.of_nat (length (filter (owned_unread u) (rows w)))), w).
Proof.
  intros Hf. unfold NotificationService.get_unread_count.
  unfold bind. by rewrite db_io_up.
Qed.

Lemma get_by_id_up k w :
  fault (db w) OpExecute = None →
  NotificationService.get_by_id k w = (Ok (notifications (db w) !! k), w).
Proof.
  intros Hf. unfold NotificationService.get_by_id.
  unfold bind. by rewrite db_io_up.
Qed.

Lemma get_user_notifications_up u b page page_size w :
  fault (db w) OpExecute = None →
  NotificationService.get_user_notifications u b page page_size w =
  (Ok (take (Z.to_nat page_size)
         (drop (Z.to_nat ((page - 1) * page_size))
            (merge_sort newest_first (filter (listed u b) (rows w)))),
       Z.of_nat (length (filter (listed u b) (rows w)))), w).
Proof.
  intros Hf. unfold NotificationService.get_user_notifications.
  unfold bind. mrun. by rewrite !db_io_up.
Qed.

(** The element at index [i] is on page [i / ps]. *)
Lemma elem_of_its_page {A} (l : list A) (i ps : nat) (x : A) :
  (0 < ps)%nat → l !! i = Some x → x ∈ take ps (drop (i / ps * ps) l).
Proof.
  intros Hps Hi. apply list_elem_of_lookup. exists (i mod ps)%nat.
  rewrite lookup_take_lt by (apply Nat.mod_upper_bound; lia).
  rewrite lookup_drop.
  replace (i / ps * ps + i mod ps)%nat with i; [done|].
  rewrite (Nat.div_mod_eq i ps) at 1. lia.
Qed.

Lemma listed_somewhere u b page_size w n :
  fault (db w) OpExecute = None →
  1 ≤ page_size → n ∈ rows w → listed u b n →
  ∃ page items total, 1 ≤ page ∧
    NotificationService.get_user_notifications u b page page_size w
    = (Ok (items, total), w) ∧
    n ∈ items.
Proof.
  intros Hf Hps Hin Hl.
  assert (n ∈ merge_sort newest_first (filter (listed u b) (rows w))) as Hs.
  { rewrite merge_sort_Permutation. by apply list_elem_of_filter. }
  apply list_elem_of_lookup in Hs as [i Hi].
  exists (Z.of_nat (i / Z.to_nat page_size) + 1). do 2 eexists.
  split; [lia|]. split; [by apply get_user_notifications_up|].
  replace (Z.to_nat ((Z.of_nat (i / Z.to_nat page_size) + 1 - 1) * page_size))
    with (i / Z.to_nat page_size * Z.to_nat page_size)%nat.
  - apply elem_of_its_page; [lia|done].
  - rewrite Z2Nat.inj_mul by lia.
    replace (Z.of_nat (i / Z.to_nat page_size) + 1 - 1)
      with (Z.of_nat (i / Z.to_nat page_size)) by lia.
    by rewrite Nat2Z.id.
Qed.

Lemma fresh_seq_unused w :
  fresh_seq w → notifications (db w) !! notifications_seq (db w) = None.
Proof.
  intros Hfresh. apply eq_None_not_Some. intros [n Hn].
  apply Hfresh in Hn. simpl in Hn. lia.
Qed.

(** What the queries see once [create] has returned: the new row by its id,
    one more unread row for its owner, and the row on some page of the
    owner's listing. *)
Lemma created_row_visible now d w w' :
  store_up w → fresh_seq w →
  db w' = mkSession
    (<[notifications_seq (db w) :=
         new_notification (notifications_seq (db w)) now d]>
       (notifications (db w)))
    (notifications_seq (db w) + 1) (users (db w)) (fault (db w)) →
  let r := new_notification (notifications_seq (db w)) now d in
  NotificationService.get_by_id (id r) w' = (Ok (Some r), w') ∧
  (∃ k, NotificationService.get_unread_count (nc_user_id d) w = (Ok k, w) ∧
        NotificationService.get_unread_count (nc_user_id d) w'
        = (Ok (k + 1), w')) ∧
  ∀ unread_only page_size, 1 ≤ page_size →
    ∃ page items total, 1 ≤ page ∧
      NotificationService.get_user_notifications (nc_user_id d) unread_only
        page page_size w' = (Ok (items, total), w') ∧
      r ∈ items.
Proof.
  intros Hup Hfresh Hdb r.
  assert (∀ op, fault (db w') op = None) as Hup'.
  { intros op. rewrite Hdb. apply Hup. }
  assert (rows w' ≡ₚ r :: rows w) as Hrows.
  { unfold rows. rewrite Hdb. simpl.
    rewrite map_to_list_insert by by apply fresh_seq_unused. done. }
  split_and!.
  - rewrite get_by_id_up by done. rewrite Hdb. simpl.
    by rewrite lookup_insert_eq.
  - eexists. split; [by apply get_unread_count_up|].
    rewrite get_unread_count_up by done. do 2 f_equal.
    rewrite Hrows, filter_cons_True by done. simpl. lia.
  - intros b page_size Hps. apply listed_somewhere; try done.
    rewrite Hrows. apply list_elem_of_here.
Qed.

(** [create] keeps the two conditions on the table. *)
Lemma create_keeps_table_conditions now d w r w' :
  fresh_seq w → keys_are_ids w →
  NotificationService.create now d w = (Ok r, w') →
  fresh_seq w' ∧ keys_are_ids w'.
Proof.
  intros Hfresh Hkeys Hrun.
  destruct (fault (db w) OpFlush) as [e|] eqn:Hflush.
  { rewrite (create_flush_down _ _ _ e) in Hrun by done. congruence. }
  destruct (fault (db w) OpRefresh) as [e|] eqn:Hrefresh.
  { rewrite (create_refresh_down _ _ _ e) in Hrun by done. congruence. }
  destruct (create_up now d w Hflush Hrefresh) as (w2 & Hrun2 & Hdb & _).
  rewrite Hrun in Hrun2. injection Hrun2 as -> ->.
  unfold fresh_seq, keys_are_ids. rewrite Hdb. simpl. split.
  - apply map_Forall_insert_2; [lia|].
    eapply map_Forall_impl; [exact Hfresh|]. simpl. intros. lia.
  - by apply map_Forall_insert_2.
Qed.

(** C3. Persistence before push: with the store up, [create] returns the
    row it wrote; right afterwards the row is found by its id, the owner's
    unread count is one more than before, and every listing of the owner's
    notifications, unread-only or not, has the row on one of its pages. What
    is pushed to the owner's connections is built from that stored row. A
    user without any connection makes the push a no-op: no socket changes
    and nothing is raised. *)
Theorem persistence_before_push (now : Z) (d : NotificationCreate)
    (w : World) :
  store_up w → fresh_seq w →
  ∃ r w', NotificationService.create now d w = (Ok r, w') ∧
    user_id r = nc_user_id d ∧
    NotificationService.get_by_id (id r) w' = (Ok (Some r), w') ∧
    (∃ k, NotificationService.get_unread_count (nc_user_id d) w = (Ok k, w) ∧
          NotificationService.get_unread_count (nc_user_id d) w'
          = (Ok (k + 1), w')) ∧
    (∀ unread_only page_size, 1 ≤ page_size →
       ∃ page items total, 1 ≤ page ∧
         NotificationService.get_user_notifications (nc_user_id d)
           unread_only page page_size w' = (Ok (items, total), w') ∧
         r ∈ items) ∧
    (∀ c, socket_of w' c =
          if decide (c ∈ connections_of w (nc_user_id d))
          then delivered (push_of r) (socket_of w c)
          else socket_of w c) ∧
    (active_connections w !! nc_user_id d = None → sockets w' = sockets w).
Proof.
  intros Hup Hfresh.
  destruct (create_up now d w (Hup OpFlush) (Hup OpRefresh))
    as (w' & Hrun & Hdb & _ & Hpush).
  destruct (created_row_visible now d w w' Hup Hfresh Hdb) as (Hid & Hcnt & Hl).
  eexists _, w'. split_and!; try done.
  intros Hnone. rewrite create_no_connection in Hrun by done.
  by injection Hrun as <-.
Qed.

(** C7. Scenario A: a user without any connection and without unread
    notifications is assigned task 42, "Ship release", by "alice". The row
    is in the store with kind [task_assigned], title "New Task Assigned", a
    message that contains both names, the task id and [is_read] false; the
    user's unread count is then 1. *)
Theorem scenario_task_assigned (now u1 : Z) (w : World) :
  store_up w → fresh_seq w →
  active_connections w !! u1 = None →
  NotificationService.get_unread_count u1 w = (Ok 0, w) →
  ∃ r w',
    NotificationService.notify_task_assigned now 42 "Ship release" u1 "alice" w
    = (Ok r, w') ∧
    NotificationService.get_by_id (id r) w' = (Ok (Some r), w') ∧
    user_id r = u1 ∧
    type r = TASK_ASSIGNED ∧
    title r = "New Task Assigned" ∧
    contains "alice" (message r) = true ∧
    contains "Ship release" (message r) = true ∧
    related_task_id r = Some 42 ∧
    is_read r = false ∧
    NotificationService.get_unread_count u1 w' = (Ok 1, w') ∧
    sockets w' = sockets w.
Proof.
  intros Hup Hfresh Hnone Hzero.
  unfold NotificationService.notify_task_assigned.
  set (d := mkNotificationCreate _ _ _ _ _ _).
  set (w' := set_notifications_seq (notifications_seq (db w) + 1)
               (set_notifications
                  (λ t, <[notifications_seq (db w) :=
                            new_notification (notifications_seq (db w)) now d]>
                          t) w)).
  exists (new_notification (notifications_seq (db w)) now d), w'. split.
  { apply create_no_connection; (done || apply Hup). }
  destruct (created_row_visible now d w w' Hup Hfresh eq_refl)
    as (Hid & (k & Hk & Hk') & _).
  change (nc_user_id d) with u1 in *.
  rewrite Hzero in Hk. injection Hk as <-.
  split_and!; done.
Qed.

(** ** Ownership checks *)

Lemma mark_as_read_refused now nid u w :
  fault (db w) OpExecute = None →
  (∀ n, notifications (db w) !! nid = Some n → user_id n ≠ u) →
  NotificationService.mark_as_read now nid u w = (Ok None, w).
Proof.
  intros Hf Hn. unfold NotificationService.mark_as_read. unfold bind at 1.
  rewrite get_by_id_up by done.
  destruct (notifications (db w) !! nid) as [n|] eqn:Hk; [|done].
  by rewrite decide_True by by apply Hn.
Qed.

Lemma delete_refused nid u w :
  fault (db w) OpExecute = None →
  (∀ n, notifications (db w) !! nid = Some n → user_id n ≠ u) →
  NotificationService.delete nid u w = (Ok false, w).
Proof.
  intros Hf Hn. unfold NotificationService.delete. unfold bind at 1.
  rewrite get_by_id_up by done.
  destruct (notifications (db w) !! nid) as [n|] eqn:Hk; [|done].
  by rewrite decide_True by by apply Hn.
Qed.

Lemma get_by_id_down k w e :
  fault (db w) OpExecute = Some e →
  NotificationService.get_by_id k w = (Raise e, w).
Proof.
  intros Hf. unfold NotificationService.get_by_id.
  unfold bind. by rewrite (db_io_down _ _ e).
Qed.

(** C4. Ownership is indistinguishable from absence: for a caller who does
    not own notification [nid] and an id [missing] of no row, [mark_as_read]
    and [delete] give the same outcome and the same world on both ids, in
    the service and at the endpoints; the world is the one before the call;
    and with the store up that outcome is the single not-found result
    ([None], [False], HTTP 404 "Notification not found"). *)
Theorem ownership_indistinguishable_from_absence (now nid missing : Z)
    (caller : User) (n : Notification) (w : World) :
  notifications (db w) !! nid = Some n →
  user_id n ≠ u_id caller →
  notifications (db w) !! missing = None →
  NotificationService.mark_as_read now nid (u_id caller) w
  = NotificationService.mark_as_read now missing (u_id caller) w ∧
  NotificationService.delete nid (u_id caller) w
  = NotificationService.delete missing (u_id caller) w ∧
  Api.mark_as_read now nid caller w = Api.mark_as_read now missing caller w ∧
  Api.delete_notification nid caller w
  = Api.delete_notification missing caller w ∧
  (NotificationService.mark_as_read now nid (u_id caller) w).2 = w ∧
  (NotificationService.delete nid (u_id caller) w).2 = w ∧
  (fault (db w) OpExecute = None →
   NotificationService.mark_as_read now nid (u_id caller) w = (Ok None, w) ∧
   NotificationService.delete nid (u_id caller) w = (Ok false, w) ∧
   Api.mark_as_read now nid caller w = (Raise Api.not_found, w) ∧
   Api.delete_notification nid caller w = (Raise Api.not_found, w)).
Proof.
  intros Hrow Hother Hmissing.
  assert (∀ k, k = nid ∨ k = missing →
            ∀ n', notifications (db w) !! k = Some n' → user_id n' ≠ u_id caller)
    as Hdeny.
  { intros k [->| ->] n' Hn'; congruence. }
  destruct (fault (db w) OpExecute) as [e|] eqn:Hf.
  - assert (∀ k, NotificationService.mark_as_read now k (u_id caller) w
                 = (Raise e, w)) as Hm.
    { intros k. unfold NotificationService.mark_as_read. unfold bind at 1.
      by rewrite (get_by_id_down _ _ e). }
    assert (∀ k, NotificationService.delete k (u_id caller) w = (Raise e, w))
      as Hd.
    { intros k. unfold NotificationService.delete. unfold bind at 1.
      by rewrite (get_by_id_down _ _ e). }
    unfold Api.mark_as_read, Api.delete_notification, bind.
    rewrite !Hm, !Hd. by split_and!.
  - assert (∀ k, k = nid ∨ k = missing →
              NotificationService.mark_as_read now k (u_id caller) w
              = (Ok None, w)) as Hm.
    { intros k Hk. apply mark_as_read_refused; [done|by apply Hdeny]. }
    assert (∀ k, k = nid ∨ k = missing →
              NotificationService.delete k (u_id caller) w = (Ok false, w))
      as Hd.
    { intros k Hk. apply delete_refused; [done|by apply Hdeny]. }
    unfold Api.mark_as_read, Api.delete_notification, bind.
    rewrite !(Hm nid), !(Hm missing), !(Hd nid), !(Hd missing) by auto.
    by split_and!.
Qed.

(** C9. The owner marks a notification that is already read: the call does
    not answer not-found, it returns the row again, still read, with
    [read_at] set to the time of this call whatever it was before, every
    other column as it was; the endpoint answers with the same row. *)
Theorem mark_read_again (now nid : Z) (n : Notification) (caller : User)
    (w : World) :
  store_up w → keys_are_ids w →
  notifications (db w) !! nid = Some n →
  user_id n = u_id caller →
  is_read n = true →
  ∃ r w',
    NotificationService.mark_as_read now nid (u_id caller) w
    = (Ok (Some r), w') ∧
    Api.mark_as_read now nid caller w = (Ok r, w') ∧
    is_read r = true ∧
    read_at r = Some now ∧
    r = set_read now n ∧
    notifications (db w') = <[nid := r]> (notifications (db w)).
Proof.
  intros Hup Hkeys Hrow Howner Hread.
  assert (id n = nid) as Hid by by apply (Hkeys nid n).
  assert (NotificationService.mark_as_read now nid (u_id caller) w
          = (Ok (Some (set_read now n)),
             set_notifications (λ t, <[nid := set_read now n]> t) w)) as Hrun.
  { unfold NotificationService.mark_as_read. unfold bind at 1.
    rewrite get_by_id_up by apply Hup. rewrite Hrow.
    rewrite decide_False by (intros Hne; by apply Hne).
    unfold db_update, db_refresh. unfold bind at 1 2.
    rewrite db_io_up by apply Hup. mrun.
    rewrite db_io_up by apply Hup. simpl.
    by rewrite Hid, lookup_insert_eq. }
  eexists _, _. split; [exact Hrun|].
  unfold Api.mark_as_read, bind. rewrite Hrun. by split_and!.
Qed.

(** ** Mark all as read *)

Lemma mark_all_as_read_up now u w :
  fault (db w) OpExecute = None → fault (db w) OpFlush = None →
  NotificationService.mark_all_as_read now u w =
  (Ok (Z.of_nat (length (filter (owned_unread u) (rows w)))),
   set_notifications (λ t, bulk_read now u <$> t) w).
Proof.
  intros He Hf. unfold NotificationService.mark_all_as_read.
  unfold bind at 1. rewrite db_io_up by done. mrun.
  by rewrite db_io_up.
Qed.

Lemma mark_all_as_read_world now u w :
  (NotificationService.mark_all_as_read now u w).2 = w ∨
  (NotificationService.mark_all_as_read now u w).2
  = set_notifications (λ t, bulk_read now u <$> t) w.
Proof.
  unfold NotificationService.mark_all_as_read.
  destruct (fault (db w) OpExecute) as [e|] eqn:He.
  - left. unfold bind at 1. by rewrite (db_io_down _ _ e).
  - right. unfold bind at 1. rewrite db_io_up by done. mrun.
    destruct (fault (db w) OpFlush) as [e|] eqn:Hf.
    + by rewrite (db_io_down _ _ e).
    + by rewrite db_io_up.
Qed.

Lemma unread_rows_positive u w :
  0 < Z.of_nat (length (filter (owned_unread u) (rows w))) ↔
  ∃ k n, notifications (db w) !! k = Some n ∧ owned_unread u n.
Proof.
  split.
  - intros Hpos.
    destruct (filter (owned_unread u) (rows w)) as [|n l] eqn:Hl;
      [simpl in Hpos; lia|].
    assert (n ∈ filter (owned_unread u) (rows w)) as Hin
      by (rewrite Hl; apply list_elem_of_here).
    apply list_elem_of_filter in Hin as [Hn Hin].
    apply elem_of_rows in Hin as [k Hk]. by exists k, n.
  - intros (k & n & Hk & Hn).
    assert (n ∈ filter (owned_unread u) (rows w)) as Hin.
    { apply list_elem_of_filter. split; [done|]. apply elem_of_rows. by exists k. }
    destruct (filter (owned_unread u) (rows w)); [by apply elem_of_nil in Hin|].
    simpl. lia.
Qed.

(** C6, as the code has it. With the store up, [mark_all_as_read] returns
    the unread count of the caller at the time of the call, which is
    positive exactly when the caller has an unread notification; it sets
    [is_read] and [read_at] on exactly the caller's unread rows; a second
    call right after returns zero and changes no row, and the caller's
    unread count is zero. *)
Theorem mark_all_read_twice (now1 now2 u : Z) (w : World) :
  store_up w →
  ∃ k w1 w2,
    NotificationService.get_unread_count u w = (Ok k, w) ∧
    NotificationService.mark_all_as_read now1 u w = (Ok k, w1) ∧
    (0 < k ↔ ∃ key n, notifications (db w) !! key = Some n ∧ owned_unread u n) ∧
    (∀ key, notifications (db w1) !! key
            = bulk_read now1 u <$> notifications (db w) !! key) ∧
    NotificationService.mark_all_as_read now2 u w1 = (Ok 0, w2) ∧
    notifications (db w2) = notifications (db w1) ∧
    NotificationService.get_unread_count u w1 = (Ok 0, w1).
Proof.
  intros Hup.
  set (w1 := set_notifications (λ t, bulk_read now1 u <$> t) w).
  assert (filter (owned_unread u) (rows w1) = []) as Hnone.
  { apply Permutation_nil_r. unfold w1. rewrite rows_fmap.
    by rewrite filter_bulk_read. }
  exists (Z.of_nat (length (filter (owned_unread u) (rows w)))), w1,
    (set_notifications (λ t, bulk_read now2 u <$> t) w1).
  split_and!.
  - apply get_unread_count_up, Hup.
  - apply mark_all_as_read_up; apply Hup.
  - apply unread_rows_positive.
  - intros key. unfold w1. simpl. apply lookup_fmap.
  - rewrite mark_all_as_read_up by apply Hup. by rewrite Hnone.
  - simpl. apply map_eq. intros key. rewrite !lookup_fmap.
    destruct (notifications (db w) !! key) as [n|]; [|done]. simpl. f_equal.
    unfold bulk_read at 1.
    by rewrite decide_False by apply bulk_read_not_unread.
  - rewrite get_unread_count_up by apply Hup. by rewrite Hnone.
Qed.

(** C10. Frame of [mark_all_as_read]: a row of another user, and a row of
    the caller that is already read, is after the call exactly the row it
    was, [read_at] and content included; no row is added or removed; users,
    registry and sockets are untouched. This holds whether or not the store
    raises during the call. *)
Theorem mark_all_read_frame (now u key : Z) (n : Notification) (w : World) :
  notifications (db w) !! key = Some n →
  user_id n ≠ u ∨ is_read n = true →
  let w' := (NotificationService.mark_all_as_read now u w).2 in
  notifications (db w') !! key = Some n ∧
  dom (notifications (db w')) = dom (notifications (db w)) ∧
  users (db w') = users (db w) ∧
  active_connections w' = active_connections w ∧
  sockets w' = sockets w.
Proof.
  intros Hrow Hframe w'.
  destruct (mark_all_as_read_world now u w) as [Hw|Hw]; unfold w'; rewrite Hw.
  - done.
  - simpl. split_and!; try done.
    + rewrite lookup_fmap, Hrow. simpl. f_equal. unfold bulk_read.
      rewrite decide_False; [done|]. intros [Hu Hr].
      destruct Hframe as [Hne|Hread]; [done|congruence].
    + apply dom_fmap_L.
Qed.

(** ** The live-connection handshake *)

Section Handshake.

Variable decode_token : string → option (gmap string string).
Variable py_int : string → option Z.

Lemma get_current_user_ws_invalid c w :
  invalid_credential decode_token py_int w c →
  Api.get_current_user_ws decode_token py_int c w = (Ok None, w).
Proof.
  intros (t & Htok & Hne & Hbad). unfold Api.get_current_user_ws. mrun.
  rewrite Htok. rewrite decide_False by done.
  destruct Hbad as [->|(payload & -> & Hsub)]; [done|].
  destruct Hsub as [->|(sub & n & -> & -> & Hf & Hn)]; [done|].
  unfold UserService.get_by_id, bind. rewrite db_io_up by done. mrun.
  by rewrite Hn.
Qed.

(** C8. Live-connection rejection: a request whose credential is missing,
    or invalid, makes the endpoint return normally with its socket closed
    with code 4001 and the reason "Missing token", respectively "Invalid
    token"; the socket was never accepted and the registry is the one before
    the request, the close frame being the only change to the world. *)
Theorem live_connection_rejection (c : conn) (w : World) (reason : string) :
  credential_defect decode_token py_int w c reason →
  ∃ w', Api.websocket_endpoint decode_token py_int c w = (Ok tt, w') ∧
    close_frame (socket_of w' c) = Some (4001, reason) ∧
    accepted (socket_of w' c) = accepted (socket_of w c) ∧
    active_connections w' = active_connections w ∧
    w' = set_sockets (λ ss, <[c := rejected reason (socket_of w c)]> ss) w.
Proof.
  intros Hdefect.
  exists (set_sockets (λ ss, <[c := rejected reason (socket_of w c)]> ss) w).
  split; [|split_and!; try done;
           unfold socket_of at 1; simpl; by rewrite lookup_insert_eq].
  unfold Api.websocket_endpoint. mrun.
  destruct Hdefect as [[Hmissing ->]|[Hinvalid ->]].
  - by rewrite decide_True by done.
  - pose proof Hinvalid as (t & Htok & Hne & _).
    rewrite decide_False by (rewrite Htok; intros [?|[= ?]]; done).
    by rewrite get_current_user_ws_invalid.
Qed.

(** Outside the two defects above: a token that decodes to a subject the
    builtin [int] rejects is not answered with a close frame, the
    [ValueError] of [int(user_id)] leaves the endpoint. Tokens of this
    server carry the numeric user id as subject. *)
Lemma unparsable_subject_raises (c : conn) (w : World) (t sub : string)
    (payload : gmap string string) :
  query_params (socket_of w c) !! "token" = Some t → t ≠ EmptyString →
  decode_token t = Some payload → payload !! "sub" = Some sub →
  py_int sub = None →
  Api.websocket_endpoint decode_token py_int c w = (Raise ValueError, w).
Proof.
  intros Htok Hne Hdec Hsub Hint. unfold Api.websocket_endpoint. mrun.
  rewrite decide_False by (rewrite Htok; intros [?|[= ?]]; done).
  unfold Api.get_current_user_ws. mrun.
  rewrite Htok, decide_False by done. by rewrite Hdec, Hsub, Hint.
Qed.

End Handshake.

(** ** The theorems at concrete worlds *)

Example registry_emptied_by_last_disconnect :
  active_connections
    (after_calls
       [Connect 1%nat 7; Connect 2%nat 7; Disconnect 1%nat 7;
        Disconnect 2%nat 7] sample_world) = ∅.
Proof. reflexivity. Qed.

Example fan_out_past_a_dead_socket :
  ∃ w', ConnectionManager.send_personal_message sample_message 7 sample_world
        = (Ok tt, w') ∧
    outbox (socket_of w' 1%nat) = [] ∧
    outbox (socket_of w' 2%nat) = [JsonFrame sample_message].
Proof. eexists. split; [reflexivity|]. split; reflexivity. Qed.

Example create_with_flush_down :
  NotificationService.create 100 sample_create flush_down_world
  = (Raise (DBAPIError 53), flush_down_world).
Proof. reflexivity. Qed.

Example create_past_a_dead_socket :
  ∃ r w', NotificationService.create 100 sample_create sample_world
          = (Ok r, w') ∧
    notifications (db w') !! 4 = Some r ∧
    outbox (socket_of w' 1%nat) = [] ∧
    outbox (socket_of w' 2%nat) = [JsonFrame (push_of r)].
Proof. eexists _, _. split; [reflexivity|]. split_and!; reflexivity. Qed.

Lemma persistence_before_push_witness :
  ∃ r w',
    NotificationService.create 100 sample_create sample_world = (Ok r, w') ∧
    NotificationService.get_by_id (id r) w' = (Ok (Some r), w') ∧
    ∃ k, NotificationService.get_unread_count 7 sample_world
         = (Ok k, sample_world) ∧
      NotificationService.get_unread_count 7 w' = (Ok (k + 1), w').
Proof.
  assert (store_up sample_world) as Hup by (intros op; reflexivity).
  assert (fresh_seq sample_world) as Hfresh
    by (apply (bool_decide_unpack _); vm_compute; exact I).
  destruct (persistence_before_push 100 sample_create sample_world Hup Hfresh)
    as (r & w' & Hrun & _ & Hid & Hcount & _).
  exists r, w'. split; [exact Hrun|]. split; [exact Hid|exact Hcount].
Defined.

Lemma ownership_indistinguishable_from_absence_witness :
  Api.mark_as_read 50 3 (mkUser 7 true) sample_world
  = Api.mark_as_read 50 99 (mkUser 7 true) sample_world ∧
  Api.delete_notification 3 (mkUser 7 true) sample_world
  = Api.delete_notification 99 (mkUser 7 true) sample_world ∧
  Api.mark_as_read 50 3 (mkUser 7 true) sample_world
  = (Raise Api.not_found, sample_world).
Proof.
  assert (notifications (db sample_world) !! 3 = Some row3) as Hrow
    by reflexivity.
  assert (user_id row3 ≠ u_id (mkUser 7 true)) as Hother by (simpl; lia).
  assert (notifications (db sample_world) !! 99 = None) as Hmissing
    by reflexivity.
  destruct (ownership_indistinguishable_from_absence 50 3 99 (mkUser 7 true)
              row3 sample_world Hrow Hother Hmissing)
    as (_ & _ & Hread & Hdelete & _ & _ & Hup).
  destruct (Hup eq_refl) as (_ & _ & Hnot_found & _).
  split; [exact Hread|]. split; [exact Hdelete|exact Hnot_found].
Defined.

Lemma mark_all_read_twice_witness :
  ∃ k w1 w2,
    NotificationService.get_unread_count 7 sample_world = (Ok k, sample_world) ∧
    NotificationService.mark_all_as_read 50 7 sample_world = (Ok k, w1) ∧
    NotificationService.mark_all_as_read 60 7 w1 = (Ok 0, w2) ∧
    NotificationService.get_unread_count 7 w1 = (Ok 0, w1).
Proof.
  assert (store_up sample_world) as Hup by (intros op; reflexivity).
  destruct (mark_all_read_twice 50 60 7 sample_world Hup)
    as (k & w1 & w2 & Hk & Hfirst & _ & _ & Hsecond & _ & Hzero).
  exists k, w1, w2. split; [exact Hk|]. split; [exact Hfirst|].
  split; [exact Hsecond|exact Hzero].
Defined.

Example mark_all_read_sample :
  (NotificationService.mark_all_as_read 50 7 sample_world).1 = Ok 1.
Proof. reflexivity. Qed.

(** C6 does not hold as stated: a caller without any unread notification
    gets the count zero from the first call already. *)
Lemma mark_all_read_first_count_zero : ¬ nonzero_then_zero 50 60 7 quiet_world.
Proof.
  intros (k & w1 & w2 & Hfirst & Hk & _).
  rewrite mark_all_as_read_up in Hfirst by reflexivity.
  injection Hfirst as <- _. by apply Hk.
Qed.

Lemma scenario_task_assigned_witness :
  ∃ r w',
    NotificationService.notify_task_assigned 100 42 "Ship release" 7 "alice"
      quiet_world = (Ok r, w') ∧
    title r = "New Task Assigned" ∧
    related_task_id r = Some 42 ∧
    NotificationService.get_unread_count 7 w' = (Ok 1, w').
Proof.
  assert (store_up quiet_world) as Hup by (intros op; reflexivity).
  assert (fresh_seq quiet_world) as Hfresh
    by (apply (bool_decide_unpack _); vm_compute; exact I).
  assert (active_connections quiet_world !! 7 = None) as Hnone by reflexivity.
  assert (NotificationService.get_unread_count 7 quiet_world
          = (Ok 0, quiet_world)) as Hzero by reflexivity.
  destruct (scenario_task_assigned 100 7 quiet_world Hup Hfresh Hnone Hzero)
    as (r & w' & Hrun & _ & _ & _ & Htitle & _ & _ & Htask & _ & Hcount & _).
  exists r, w'. split; [exact Hrun|]. split; [exact Htitle|].
  split; [exact Htask|exact Hcount].
Defined.

Lemma live_connection_rejection_witness :
  ∃ w', Api.websocket_endpoint reject_all no_int 9%nat forged_request
        = (Ok tt, w') ∧
    close_frame (socket_of w' 9%nat) = Some (4001, "Invalid token") ∧
    active_connections w' = active_connections forged_request.
Proof.
  assert (credential_defect reject_all no_int forged_request 9%nat
            "Invalid token") as Hdefect.
  { right. split; [|reflexivity]. exists "forged".
    split; [reflexivity|]. split; [discriminate|]. left. reflexivity. }
  destruct (live_connection_rejection reject_all no_int 9%nat forged_request
              "Invalid token" Hdefect)
    as (w' & Hrun & Hclose & _ & Hreg & _).
  exists w'. split; [exact Hrun|]. split; [exact Hclose|exact Hreg].
Defined.

Example missing_token_rejected :
  (Api.websocket_endpoint reject_all no_int 5%nat forged_request).1 = Ok tt ∧
  close_frame
    (socket_of
       (Api.websocket_endpoint reject_all no_int 5%nat forged_request).2
       5%nat)
  = Some (4001, "Missing token").
Proof. split; vm_compute; reflexivity. Qed.

Lemma mark_read_again_witness :
  ∃ r w',
    NotificationService.mark_as_read 99 1 7 sample_world = (Ok (Some r), w') ∧
    is_read r = true ∧
    read_at r = Some 99.
Proof.
  assert (store_up sample_world) as Hup by (intros op; reflexivity).
  assert (keys_are_ids sample_world) as Hkeys
    by (apply (bool_decide_unpack _); vm_compute; exact I).
  assert (notifications (db sample_world) !! 1 = Some row1) as Hrow
    by reflexivity.
  destruct (mark_read_again 99 1 row1 (mkUser 7 true) sample_world Hup Hkeys
              Hrow eq_refl eq_refl)
    as (r & w' & Hrun & _ & Hread & Hat & _).
  exists r, w'. split; [exact Hrun|]. split; [exact Hread|exact Hat].
Defined.

Lemma mark_all_read_frame_witness :
  notifications
    (db (NotificationService.mark_all_as_read 50 7 sample_world).2) !! 3
  = Some row3 ∧
  notifications
    (db (NotificationService.mark_all_as_read 50 7 sample_world).2) !! 1
  = Some row1.
Proof.
  assert (user_id row3 ≠ 7 ∨ is_read row3 = true) as Hother
    by (left; simpl; lia).
  assert (user_id row1 ≠ 7 ∨ is_read row1 = true) as Hread
    by (right; reflexivity).
  split.
  - exact (proj1 (mark_all_read_frame 50 7 3 row3 sample_world eq_refl Hother)).
  - exact (proj1 (mark_all_read_frame 50 7 1 row1 sample_world eq_refl Hread)).
Defined.

(** * Further properties of the code *)

(** ** Connection Registry *)




Lemma registry_after_disconnect_absent c u r :
  (∀ v s, r !! v = Some s → s ≠ ∅) →
  c ∉ default ∅ (r !! u) →
  registry_after_disconnect c u r = r.
Proof.
  intros Hinv Hc. unfold registry_after_disconnect. simpl.
  assert (default ∅ (r !! u) ∖ {[c]} = default ∅ (r !! u)) as ->.
  { apply set_eq. intros x. rewrite elem_of_difference, elem_of_singleton.
    split; [by intros [? _]|]. intros Hx. split; [done|]. by intros ->. }
  destruct (r !! u) as [s|] eqn:Hu; simpl.
  - rewrite decide_False by by eapply Hinv. by apply insert_id.
  - rewrite decide_True by done. by apply delete_id.
Qed.

(** X2. [disconnect] is safe to call for a handle the user does not have
    (the user being a key or not): the registry having no empty entry, the
    call returns normally and the world is the one before; no key is left
    behind by the lookup in the [defaultdict]. *)
Theorem disconnect_unregistered (c : conn) (u : Z) (w : World) :
  no_empty_entry w → c ∉ connections_of w u →
  ConnectionManager.disconnect c u w = (Ok tt, w).
Proof.
  intros Hinv Hc. rewrite disconnect_spec. f_equal.
  unfold set_active_connections.
  rewrite registry_after_disconnect_absent by done. by destruct w.
Qed.

(** X3. [connect] followed by [disconnect] of a handle the user did not
    have before gives back the registry from before the two calls, key set
    included. *)
Theorem connect_disconnect_round_trip (c : conn) (u : Z) (w : World) :
  no_empty_entry w → c ∉ connections_of w u →
  ∃ w', (ConnectionManager.connect c u ;;; ConnectionManager.disconnect c u) w
        = (Ok tt, w') ∧
    active_connections w' = active_connections w ∧
    accepted (socket_of w' c) = true.
Proof.
  intros Hinv Hc. unfold bind. rewrite connect_spec, disconnect_spec.
  eexists. split; [done|]. simpl. split.
  - unfold registry_after_disconnect. simpl. rewrite lookup_insert_eq. simpl.
    assert ((connections_of w u ∪ {[c]}) ∖ {[c]} = connections_of w u) as ->.
    { apply set_eq. intros x.
      rewrite elem_of_difference, elem_of_union, elem_of_singleton.
      split; [intros [[?|?] ?]; done|]. intros Hx. split; [by left|].
      by intros ->. }
    unfold connections_of in *.
    destruct (active_connections w !! u) as [s|] eqn:Hu; simpl.
    + rewrite decide_False by by eapply Hinv.
      rewrite insert_insert_eq. by apply insert_id.
    + rewrite decide_True by done. rewrite delete_insert_eq. by apply delete_id.
  - unfold socket_of. simpl. by rewrite lookup_insert_eq.
Qed.

Lemma delivered_times_0 m s : delivered_times 0 m s = s.
Proof.
  unfold delivered_times. destruct s as [q a cf o i wr]. simpl.
  destruct wr; [|done]. by rewrite app_nil_r.
Qed.

Lemma delivered_times_S k m s :
  delivered_times k m (delivered m s) = delivered_times (S k) m s.
Proof.
  unfold delivered_times, delivered, push_frame.
  destruct (writable s) eqn:Hw; simpl; rewrite ?Hw; [|done].
  by rewrite <- app_assoc.
Qed.

Lemma broadcast_loop_count m (us : list Z) w :
  ∃ w', for_each us (λ u, ConnectionManager.send_personal_message m u) w
        = (Ok tt, w') ∧
    active_connections w' = active_connections w ∧ db w' = db w ∧
    ∀ c, socket_of w' c =
         delivered_times
           (length (filter (λ u, c ∈ connections_of w u) us)) m
           (socket_of w c).
Proof.
  revert w. induction us as [|u us IH]; intros w; simpl.
  - exists w. split_and!; try done. intros c. by rewrite delivered_times_0.
  - unfold bind at 1.
    destruct (send_personal_message_spec m u w)
      as (w1 & -> & Hreg1 & Hdb1 & Hs1).
    destruct (IH w1) as (w' & -> & Hreg & Hdb & Hs).
    exists w'. split; [done|]. split_and!; [congruence..|].
    intros c. rewrite Hs, Hs1.
    assert (∀ v, connections_of w1 v = connections_of w v) as Hconn.
    { intros v. unfold connections_of. by rewrite Hreg1. }
    rewrite (list_filter_iff (λ v, c ∈ connections_of w1 v)
               (λ v, c ∈ connections_of w v)) by (intros v; by rewrite Hconn).
    destruct (decide (c ∈ connections_of w u)).
    + rewrite filter_cons_True by done. simpl. apply delivered_times_S.
    + by rewrite filter_cons_False by done.
Qed.

(** X4. [broadcast] returns normally whatever the sockets do and leaves
    the registry and the store alone. A socket that takes frames has the
    message appended once for every user it is registered under, so not at
    all when it is registered under none; a socket that takes no frame is
    as before. *)
Theorem broadcast_reaches_every_registration (m : Message) (w : World) :
  ∃ w', ConnectionManager.broadcast m w = (Ok tt, w') ∧
    active_connections w' = active_connections w ∧
    db w' = db w ∧
    ∀ c, socket_of w' c = delivered_times (fan_in w c) m (socket_of w c).
Proof.
  unfold ConnectionManager.broadcast, fan_in. mrun.
  apply broadcast_loop_count.
Qed.

(** ** Listing *)

Lemma get_user_notifications_down u b pg ps w e :
  fault (db w) OpExecute = Some e →
  NotificationService.get_user_notifications u b pg ps w = (Raise e, w).
Proof.
  intros Hf. unfold NotificationService.get_user_notifications.
  unfold bind. mrun. by rewrite (db_io_down _ _ e).
Qed.

Lemma get_user_notifications_inv u b pg ps w items total w' :
  NotificationService.get_user_notifications u b pg ps w
  = (Ok (items, total), w') →
  w' = w ∧
  items = take (Z.to_nat ps)
            (drop (Z.to_nat ((pg - 1) * ps))
               (merge_sort newest_first (filter (listed u b) (rows w)))) ∧
  total = Z.of_nat (length (filter (listed u b) (rows w))).
Proof.
  intros Hrun. destruct (fault (db w) OpExecute) as [e|] eqn:Hf.
  - rewrite (get_user_notifications_down _ _ _ _ _ e) in Hrun by done.
    discriminate.
  - rewrite get_user_notifications_up in Hrun by done.
    by injection Hrun as <- <- <-.
Qed.

Global Instance newest_first_total : Total newest_first.
Proof. intros a b. unfold newest_first. lia. Qed.

Global Instance newest_first_trans : Transitive newest_first.
Proof. intros a b c. unfold newest_first. lia. Qed.


Lemma list_notifications_inv pg ps b caller w resp w' :
  Api.list_notifications pg ps b caller w = (Ok resp, w') →
  ∃ its tot,
    NotificationService.get_user_notifications (u_id caller) b pg ps w
    = (Ok (its, tot), w') ∧
    resp = Api.mkPaginatedResponse its tot pg ps ((tot + ps - 1) `div` ps).
Proof.
  unfold Api.list_notifications, bind. intros Hrun.
  destruct (NotificationService.get_user_notifications _ _ _ _ w)
    as [[[its tot]|e] w1]; [|discriminate].
  injection Hrun as <- <-. by exists its, tot.
Qed.

(** X6. Pagination of the listing endpoint for validated parameters: the response
    echoes [page] and [page_size]; [total_pages] is the least number of
    pages of [page_size] items that hold [total] items; the page has
    [page_size] items, or what is left of [total] after the pages before it,
    or none; so it is empty exactly when [page] is past [total_pages]. *)
Theorem list_notifications_pages (pg ps : Z) (unread_only : bool)
    (caller : User) (w w' : World) (resp : Api.PaginatedResponse) :
  1 ≤ pg → 1 ≤ ps →
  Api.list_notifications pg ps unread_only caller w = (Ok resp, w') →
  Api.page resp = pg ∧ Api.page_size resp = ps ∧
  Api.total resp ≤ Api.total_pages resp * ps < Api.total resp + ps ∧
  Z.of_nat (length (Api.items resp))
  = Z.max 0 (Z.min ps (Api.total resp - (pg - 1) * ps)) ∧
  (Api.items resp = [] ↔ Api.total_pages resp < pg).
Proof.
  intros Hpg Hps Hrun.
  apply list_notifications_inv in Hrun as (its & tot & Hrun & ->).
  apply get_user_notifications_inv in Hrun as (-> & -> & ->). simpl.
  set (sel := filter (listed (u_id caller) unread_only) (rows w)).
  set (tot := Z.of_nat (length sel)).
  assert (length (merge_sort newest_first sel) = length sel) as Hlen
    by by rewrite merge_sort_Permutation.
  assert (0 ≤ (pg - 1) * ps) as Hoff by nia.
  pose proof (Z.div_mod (tot + ps - 1) ps ltac:(lia)) as Hdm.
  pose proof (Z.mod_pos_bound (tot + ps - 1) ps ltac:(lia)) as Hmod.
  assert (Z.of_nat
            (length (take (Z.to_nat ps)
                       (drop (Z.to_nat ((pg - 1) * ps))
                          (merge_sort newest_first sel))))
          = Z.max 0 (Z.min ps (tot - (pg - 1) * ps))) as Hitems.
  { rewrite length_take, length_drop, Hlen. unfold tot. lia. }
  split_and!; [done|done|nia|nia|done|].
  rewrite <- length_zero_iff_nil. split.
  - intros H0. rewrite H0 in Hitems. simpl in Hitems.
    assert (tot ≤ (pg - 1) * ps) by lia. nia.
  - intros Hlt. assert (tot ≤ (pg - 1) * ps) by nia. lia.
Qed.

Lemma listed_unread_iff u n : listed u true n ↔ owned_unread u n.
Proof.
  unfold listed, owned_unread. split.
  - intros [Hu Hr]. split; [done|by apply Hr].
  - by intros [Hu Hr].
Qed.

(** X7. The [total] of an unread-only listing is the number
    [get_unread_count] returns for the same user on the same store. *)
Theorem unread_listing_total_is_unread_count (u pg ps : Z) (w w1 w2 : World)
    (items : list Notification) (total count : Z) :
  NotificationService.get_user_notifications u true pg ps w
  = (Ok (items, total), w1) →
  NotificationService.get_unread_count u w = (Ok count, w2) →
  total = count.
Proof.
  intros Hlist Hcount.
  apply get_user_notifications_inv in Hlist as (-> & _ & ->).
  destruct (fault (db w) OpExecute) as [e|] eqn:Hf.
  - unfold NotificationService.get_unread_count, bind in Hcount.
    rewrite (db_io_down _ _ e) in Hcount by done. discriminate.
  - rewrite get_unread_count_up in Hcount by done. injection Hcount as <- _.
    by rewrite (list_filter_iff _ _ _ (listed_unread_iff u)).
Qed.

(** ** Single-row operations by the owner *)

Lemma rows_delete w k n :
  notifications (db w) !! k = Some n →
  rows w ≡ₚ n :: rows (set_notifications (λ t, delete k t) w).
Proof.
  intros Hk. unfold rows. simpl.
  by rewrite <- (map_to_list_delete (notifications (db w)) k n).
Qed.

Lemma rows_insert_over w k n n' :
  notifications (db w) !! k = Some n →
  rows (set_notifications (λ t, <[k := n']> t) w)
  ≡ₚ n' :: rows (set_notifications (λ t, delete k t) w).
Proof.
  intros Hk. unfold rows. simpl.
  rewrite <- (insert_delete_eq (notifications (db w))).
  by rewrite map_to_list_insert by apply lookup_delete_eq.
Qed.

(** The number [get_unread_count] returns on a store that answers. *)
Lemma unread_count_cons u n (l : list Notification) :
  Z.of_nat (length (filter (owned_unread u) (n :: l)))
  = (if decide (owned_unread u n) then 1 else 0)
    + Z.of_nat (length (filter (owned_unread u) l)).
Proof.
  destruct (decide (owned_unread u n)).
  - rewrite filter_cons_True by done. simpl. lia.
  - by rewrite filter_cons_False by done.
Qed.

Lemma delete_owner nid u n w :
  fault (db w) OpExecute = None → fault (db w) OpFlush = None →
  notifications (db w) !! nid = Some n → id n = nid → user_id n = u →
  NotificationService.delete nid u w
  = (Ok true, set_notifications (λ t, delete nid t) w).
Proof.
  intros He Hf Hrow Hid Hu. unfold NotificationService.delete.
  unfold bind at 1. rewrite get_by_id_up by done. rewrite Hrow.
  rewrite decide_False by (intros Hne; by apply Hne).
  unfold db_delete, bind. rewrite db_io_up by done. mrun. by rewrite Hid.
Qed.

(** X8. [delete] by the owner, the store being up: it returns [True] and
    removes exactly that row; the owner's unread count goes down by one if
    the row was unread and stays otherwise; afterwards the id is not found
    any more, so a second [delete] returns [False], [mark_as_read] returns
    [None], and the DELETE endpoint answers 404 after its first success. *)
Theorem delete_by_owner (now nid : Z) (n : Notification) (caller : User)
    (w : World) :
  store_up w → keys_are_ids w →
  notifications (db w) !! nid = Some n →
  user_id n = u_id caller →
  ∃ w' count,
    NotificationService.delete nid (u_id caller) w = (Ok true, w') ∧
    notifications (db w') = delete nid (notifications (db w)) ∧
    NotificationService.get_unread_count (u_id caller) w = (Ok count, w) ∧
    NotificationService.get_unread_count (u_id caller) w'
    = (Ok (count - if is_read n then 0 else 1), w') ∧
    NotificationService.get_by_id nid w' = (Ok None, w') ∧
    NotificationService.delete nid (u_id caller) w' = (Ok false, w') ∧
    NotificationService.mark_as_read now nid (u_id caller) w' = (Ok None, w') ∧
    Api.delete_notification nid caller w
    = (Ok "Notification deleted successfully", w') ∧
    Api.delete_notification nid caller w' = (Raise Api.not_found, w').
Proof.
  intros Hup Hkeys Hrow Howner.
  assert (id n = nid) as Hid by by apply (Hkeys nid n).
  set (w' := set_notifications (λ t, delete nid t) w).
  assert (NotificationService.delete nid (u_id caller) w = (Ok true, w'))
    as Hrun by (apply (delete_owner _ _ n); (done || apply Hup)).
  assert (notifications (db w') !! nid = None) as Hgone
    by apply lookup_delete_eq.
  assert (NotificationService.delete nid (u_id caller) w' = (Ok false, w'))
    as Hagain.
  { apply delete_refused; [apply Hup|]. intros n'. by rewrite Hgone. }
  exists w', (Z.of_nat (length (filter (owned_unread (u_id caller)) (rows w)))).
  split_and!; try done.
  - apply get_unread_count_up, Hup.
  - rewrite get_unread_count_up by apply Hup. do 2 f_equal.
    rewrite (rows_delete w nid n Hrow), unread_count_cons.
    fold w'. destruct (is_read n) eqn:Hr.
    + rewrite (decide_False (P:=owned_unread (u_id caller) n)); [lia|].
      unfold owned_unread. rewrite Hr. by intros [_ ?].
    + rewrite (decide_True (P:=owned_unread (u_id caller) n)) by done. lia.
  - rewrite get_by_id_up by apply Hup. by rewrite Hgone.
  - apply mark_as_read_refused; [apply Hup|]. intros n'. by rewrite Hgone.
  - unfold Api.delete_notification, bind. by rewrite Hrun.
  - unfold Api.delete_notification, bind. by rewrite Hagain.
Qed.

Lemma mark_as_read_owner now nid u n w :
  store_up w →
  notifications (db w) !! nid = Some n → id n = nid → user_id n = u →
  NotificationService.mark_as_read now nid u w
  = (Ok (Some (set_read now n)),
     set_notifications (λ t, <[nid := set_read now n]> t) w).
Proof.
  intros Hup Hrow Hid Hu. unfold NotificationService.mark_as_read.
  unfold bind at 1. rewrite get_by_id_up by apply Hup. rewrite Hrow.
  rewrite decide_False by (intros Hne; by apply Hne).
  unfold db_update, db_refresh. unfold bind at 1 2.
  rewrite db_io_up by apply Hup. mrun.
  rewrite db_io_up by apply Hup. simpl.
  by rewrite Hid, lookup_insert_eq.
Qed.

(** X9. [mark_as_read] by the owner of an unread notification, the store
    being up: the row comes back read with [read_at] the time of the call,
    the owner's unread count is one less than before, and every other row
    of the table is untouched. *)
Theorem mark_unread_as_read (now nid : Z) (n : Notification) (u : Z)
    (w : World) :
  store_up w → keys_are_ids w →
  notifications (db w) !! nid = Some n →
  user_id n = u → is_read n = false →
  ∃ r w' count,
    NotificationService.mark_as_read now nid u w = (Ok (Some r), w') ∧
    is_read r = true ∧ read_at r = Some now ∧
    notifications (db w') !! nid = Some r ∧
    (∀ k, k ≠ nid → notifications (db w') !! k = notifications (db w) !! k) ∧
    NotificationService.get_unread_count u w = (Ok count, w) ∧
    NotificationService.get_unread_count u w' = (Ok (count - 1), w').
Proof.
  intros Hup Hkeys Hrow Howner Hunread.
  assert (id n = nid) as Hid by by apply (Hkeys nid n).
  eexists _, _, _. split; [by apply mark_as_read_owner|].
  split_and!; try done.
  - simpl. apply lookup_insert_eq.
  - intros k Hk. simpl. by apply lookup_insert_ne.
  - apply get_unread_count_up, Hup.
  - rewrite get_unread_count_up by apply Hup. do 2 f_equal.
    rewrite (rows_insert_over w nid n _ Hrow), (rows_delete w nid n Hrow).
    rewrite !unread_count_cons.
    rewrite (decide_True (P:=owned_unread u n)) by done.
    rewrite decide_False by (unfold owned_unread; simpl; by intros [_ ?]).
    lia.
Qed.

(** ** Sequences of service calls *)












(** ** Convenience constructors *)

Lemma prefix_append s t : String.prefix s (String.append s t) = true.
Proof.
  induction s as [|a s IH]; simpl; [by destruct t|].
  by destruct (Ascii.ascii_dec a a).
Qed.

Lemma contains_prefix sub t : contains sub (String.append sub t) = true.
Proof.
  destruct sub as [|a sub]; [by destruct t|].
  simpl. destruct (Ascii.ascii_dec a a); [|done]. by rewrite prefix_append.
Qed.

Lemma contains_append_r sub p s :
  contains sub s = true → contains sub (String.append p s) = true.
Proof.
  intros Hs. induction p as [|a p IH]; [done|].
  simpl. rewrite IH. apply orb_true_r.
Qed.

Lemma helper_result_create now d w actor entity mid :
  store_up w →
  nc_message d
  = String.append actor
      (String.append mid
         (String.append dquote (String.append entity dquote))) →
  helper_result (NotificationService.create now d w) (nc_type d) (nc_title d)
    (nc_user_id d) now (nc_related_task_id d) (nc_related_team_id d)
    actor entity.
Proof.
  intros Hup Hmsg.
  destruct (create_up now d w (Hup OpFlush) (Hup OpRefresh))
    as (w' & Hrun & Hdb & _).
  eexists _, w'. split; [exact Hrun|]. rewrite Hdb. simpl.
  split_and!; try done.
  - apply lookup_insert_eq.
  - rewrite Hmsg. apply contains_prefix.
  - rewrite Hmsg. do 3 apply contains_append_r. apply contains_prefix.
Qed.

(** X12. The four convenience constructors, the store being up, for any
    names and ids: each returns a stored, unread row for the given user,
    created at the time of the call, with its own kind and title, with the
    task id in [related_task_id] (the team id in [related_team_id] for a
    team invitation) and the other reference empty, and with a message that
    contains the actor's name and the task's or team's name. *)
Theorem convenience_constructors (now ref u : Z) (actor entity : string)
    (w : World) :
  store_up w →
  helper_result
    (NotificationService.notify_task_assigned now ref entity u actor w)
    TASK_ASSIGNED "New Task Assigned" u now (Some ref) None actor entity ∧
  helper_result
    (NotificationService.notify_task_updated now ref entity u actor w)
    TASK_UPDATED "Task Updated" u now (Some ref) None actor entity ∧
  helper_result
    (NotificationService.notify_task_completed now ref entity u actor w)
    TASK_COMPLETED "Task Completed" u now (Some ref) None actor entity ∧
  helper_result
    (NotificationService.notify_team_invited now ref entity u actor w)
    TEAM_INVITED "Team Invitation" u now None (Some ref) actor entity.
Proof.
  intros Hup. split_and!;
    by eapply (helper_result_create _ (mkNotificationCreate _ _ _ _ _ _)).
Qed.

(** X13. Two notifications created one after the other, the store being
    up and the id sequence fresh: the second gets the id after the first's,
    and both rows are in the table afterwards, the first one as it was
    returned. *)
Theorem creates_in_order (now1 now2 : Z) (d1 d2 : NotificationCreate)
    (w : World) :
  store_up w → fresh_seq w →
  ∃ r1 r2 w1 w2,
    NotificationService.create now1 d1 w = (Ok r1, w1) ∧
    NotificationService.create now2 d2 w1 = (Ok r2, w2) ∧
    id r2 = id r1 + 1 ∧
    notifications (db w2) !! id r1 = Some r1 ∧
    notifications (db w2) !! id r2 = Some r2.
Proof.
  intros Hup Hfresh.
  destruct (create_up now1 d1 w (Hup OpFlush) (Hup OpRefresh))
    as (w1 & Hrun1 & Hdb1 & _).
  assert (∀ op, fault (db w1) op = None) as Hup1
    by (intros op; rewrite Hdb1; apply Hup).
  destruct (create_up now2 d2 w1 (Hup1 OpFlush) (Hup1 OpRefresh))
    as (w2 & Hrun2 & Hdb2 & _).
  eexists _, _, w1, w2. split; [exact Hrun1|]. split; [exact Hrun2|].
  rewrite Hdb2, Hdb1. simpl. split_and!.
  - done.
  - rewrite lookup_insert_ne by lia. apply lookup_insert_eq.
  - apply lookup_insert_eq.
Qed.

(** ** The live channel after the handshake *)

Section Session.

Variable decode_token : string → option (gmap string string).
Variable py_int : string → option Z.



Lemma socket_of_set_sockets_ne c c' s w :
  c ≠ c' → socket_of (set_sockets (λ ss, <[c := s]> ss) w) c' = socket_of w c'.
Proof. intros Hne. unfold socket_of. simpl. by rewrite lookup_insert_ne. Qed.






Lemma get_current_user_ws_resolves c w user :
  resolves decode_token py_int w c user →
  Api.get_current_user_ws decode_token py_int c w = (Ok (Some user), w).
Proof.
  intros (t & payload & sub & n & Htok & Hne & Hdec & Hsub & Hint & Hf & Hu).
  unfold Api.get_current_user_ws. mrun.
  rewrite Htok, decide_False by done. rewrite Hdec, Hsub, Hint.
  unfold UserService.get_by_id, bind. rewrite db_io_up by done. mrun.
  by rewrite Hu.
Qed.




End Session.

(** ** The HTTP dependencies *)

Section Dependencies.

Variable decode_token : string → option (gmap string string).
Variable py_int : string → option Z.

Lemma user_by_id_up n w :
  fault (db w) OpExecute = None →
  UserService.get_by_id n w = (Ok (users (db w) !! n), w).
Proof.
  intros Hf. unfold UserService.get_by_id, bind. by rewrite db_io_up.
Qed.

Lemma user_by_id_down n w e :
  fault (db w) OpExecute = Some e →
  UserService.get_by_id n w = (Raise e, w).
Proof.
  intros Hf. unfold UserService.get_by_id, bind. by rewrite (db_io_down _ _ e).
Qed.

Lemma get_current_user_inv (t : string) (w w' : World) (u : User) :
  Deps.get_current_user decode_token py_int t w = (Ok u, w') →
  w' = w ∧ u_is_active u = true ∧ fault (db w) OpExecute = None ∧
  ∃ payload sub n,
    decode_token t = Some payload ∧
    payload !! "type" = Some "access" ∧
    payload !! "sub" = Some sub ∧
    py_int sub = Some n ∧
    users (db w) !! n = Some u.
Proof.
  unfold Deps.get_current_user. intros Hrun.
  destruct (decode_token t) as [payload|]; [|discriminate].
  destruct (payload !! "sub") as [sub|] eqn:Hsub; [|discriminate].
  destruct (decide (payload !! "type" ≠ Some "access")) as [Hbad|Htype];
    [discriminate|].
  apply dec_stable in Htype.
  destruct (py_int sub) as [n|] eqn:Hint; [|discriminate].
  unfold bind in Hrun.
  destruct (fault (db w) OpExecute) as [e|] eqn:Hf.
  { rewrite (user_by_id_down _ _ e) in Hrun by done. discriminate. }
  rewrite user_by_id_up in Hrun by done.
  destruct (users (db w) !! n) as [user|] eqn:Hu; [|discriminate].
  destruct (u_is_active user) eqn:Hact; [|discriminate].
  injection Hrun as <- <-. split_and!; try done. by exists payload, sub, n.
Qed.

(** X15. [get_current_user] returns a user only for a token that decodes,
    is of type "access" and has a subject that is the id of an active row
    of [users]; the world is left as it was. *)
Theorem get_current_user_sound (t : string) (w w' : World) (u : User) :
  Deps.get_current_user decode_token py_int t w = (Ok u, w') →
  w' = w ∧ u_is_active u = true ∧
  ∃ payload sub n,
    decode_token t = Some payload ∧
    payload !! "type" = Some "access" ∧
    payload !! "sub" = Some sub ∧
    py_int sub = Some n ∧
    users (db w) !! n = Some u.
Proof.
  intros Hrun. by apply get_current_user_inv in Hrun as (? & ? & _ & ?).
Qed.

(** X16. Whatever [get_current_user] accepts, the live channel accepts: if
    the HTTP dependency returns a user for a non-empty token, a
    live-connection request with that token in its query string resolves to
    the same user. *)
Theorem live_channel_accepts_http_tokens (t : string) (c : conn)
    (w w' : World) (u : User) :
  Deps.get_current_user decode_token py_int t w = (Ok u, w') →
  t ≠ EmptyString →
  query_params (socket_of w c) !! "token" = Some t →
  Api.get_current_user_ws decode_token py_int c w = (Ok (Some u), w).
Proof.
  intros Hrun Hne Htok.
  apply get_current_user_inv in Hrun
    as (-> & _ & Hf & payload & sub & n & Hdec & _ & Hsub & Hint & Hu).
  apply get_current_user_ws_resolves. by exists t, payload, sub, n.
Qed.

(** X17. Where the two dependencies differ: for a token that decodes to
    the id of a user, [get_current_user] answers 401 "Could not validate
    credentials" unless the token's type is "access", then 401 "User account
    is disabled" unless the user is active, and else returns the user;
    [get_current_user_ws] returns the user in all three cases. *)
Theorem live_channel_checks_less (t sub : string) (n : Z)
    (payload : gmap string string) (user : User) (c : conn) (w : World) :
  query_params (socket_of w c) !! "token" = Some t → t ≠ EmptyString →
  decode_token t = Some payload → payload !! "sub" = Some sub →
  py_int sub = Some n →
  fault (db w) OpExecute = None → users (db w) !! n = Some user →
  Api.get_current_user_ws decode_token py_int c w = (Ok (Some user), w) ∧
  Deps.get_current_user decode_token py_int t w =
  (if decide (payload !! "type" = Some "access")
   then if u_is_active user then Ok user
        else Raise (HTTPException 401 "User account is disabled")
   else Raise Deps.credentials_exception, w).
Proof.
  intros Htok Hne Hdec Hsub Hint Hf Hu. split.
  - apply get_current_user_ws_resolves. by exists t, payload, sub, n.
  - unfold Deps.get_current_user. rewrite Hdec, Hsub.
    destruct (decide (payload !! "type" = Some "access")) as [Ht|Ht].
    + rewrite decide_False by (by intros ?). rewrite Hint.
      unfold bind. rewrite user_by_id_up by done. rewrite Hu.
      by destruct (u_is_active user).
    + by rewrite decide_True.
Qed.

(** X18. [get_optional_current_user] never raises an [HTTPException], and
    it returns a user exactly when it is given a non-empty token for which
    [get_current_user] returns that user. *)
Theorem get_optional_current_user_spec (tok : option string) (w : World) :
  (∀ status detail,
     (Deps.get_optional_current_user decode_token py_int tok w).1
     ≠ Raise (HTTPException status detail)) ∧
  ∀ u w',
    Deps.get_optional_current_user decode_token py_int tok w
    = (Ok (Some u), w') ↔
    ∃ t, tok = Some t ∧ t ≠ EmptyString ∧
      Deps.get_current_user decode_token py_int t w = (Ok u, w').
Proof.
  unfold Deps.get_optional_current_user. split.
  - intros status detail. destruct tok as [t|]; [|done].
    destruct (decide (t = EmptyString)); [done|].
    destruct (Deps.get_current_user decode_token py_int t w) as [[u|e] w1];
      [done|]. by destruct e.
  - intros u w'. split.
    + destruct tok as [t|]; [|done].
      destruct (decide (t = EmptyString)); [done|].
      destruct (Deps.get_current_user decode_token py_int t w)
        as [[u1|e] w1] eqn:Hrun.
      * intros [= <- <-]. by exists t.
      * by destruct e.
    + intros (t & -> & Hne & Hrun). rewrite decide_False by done.
      by rewrite Hrun.
Qed.

(** X19. The check of [get_current_active_user] is redundant after
    [get_current_user]: chaining the two does what [get_current_user] does
    alone, outcome and world. *)
Theorem active_user_check_redundant (t : string) (w : World) :
  (user <~ Deps.get_current_user decode_token py_int t ;;
   Deps.get_current_active_user user) w
  = Deps.get_current_user decode_token py_int t w.
Proof.
  unfold bind at 1.
  destruct (Deps.get_current_user decode_token py_int t w) as [[u|e] w1] eqn:Hrun;
    [|done].
  apply get_current_user_inv in Hrun as (_ & Hact & _).
  unfold Deps.get_current_active_user. by rewrite Hact.
Qed.

End Dependencies.

(** ** The unread-count endpoints *)

(** X20. The unread-count and mark-all-read endpoints agree, the store
    being up: the message of [POST /mark-all-read] names, in decimal, the
    count [GET /unread-count] gave just before, and right after it
    [GET /unread-count] gives 0. *)
Theorem unread_count_endpoints (now : Z) (caller : User) (w : World) :
  store_up w →
  ∃ k w', 0 ≤ k ∧
    Api.get_unread_count caller w = (Ok {[ "count" := k ]}, w) ∧
    Api.mark_all_as_read now caller w
    = (Ok (String.append "Marked "
             (String.append (pretty k) " notifications as read")), w') ∧
    Api.get_unread_count caller w' = (Ok {[ "count" := 0 ]}, w').
Proof.
  intros Hup.
  exists (Z.of_nat (length (filter (owned_unread (u_id caller)) (rows w)))),
    (set_notifications (λ t, bulk_read now (u_id caller) <$> t) w).
  split; [lia|]. split_and!.
  - unfold Api.get_unread_count, bind.
    by rewrite get_unread_count_up by apply Hup.
  - unfold Api.mark_all_as_read, bind.
    by rewrite mark_all_as_read_up by apply Hup.
  - unfold Api.get_unread_count, bind.
    rewrite get_unread_count_up by apply Hup.
    assert (filter (owned_unread (u_id caller))
              (rows (set_notifications
                       (λ t, bulk_read now (u_id caller) <$> t) w)) = [])
      as ->; [|done].
    apply Permutation_nil_r. rewrite rows_fmap. by rewrite filter_bulk_read.
Qed.

(** ** The kinds on the wire *)

(** X21. The ten notification kinds have pairwise distinct values, so the
    [type] string of a push payload determines the kind of the row. *)
Theorem value_injective (a b : NotificationType) : value a = value b → a = b.
Proof. destruct a, b; simpl; intros H; (done || discriminate H). Qed.

(** ** The further properties at concrete worlds *)

Lemma sample_world_no_empty_entry : no_empty_entry sample_world.
Proof.
  intros u s Hs. unfold sample_world in Hs. simpl in Hs.
  apply lookup_insert_Some in Hs as [[_ <-]|[_ Hs]].
  - intros He. apply (not_elem_of_empty (C:=gset conn) 1%nat).
    rewrite <- He. apply elem_of_union_l. by apply elem_of_singleton.
  - by rewrite lookup_empty in Hs.
Defined.

Lemma disconnect_unregistered_witness :
  ConnectionManager.disconnect 5%nat 7 sample_world = (Ok tt, sample_world) ∧
  ConnectionManager.disconnect 5%nat 8 sample_world = (Ok tt, sample_world).
Proof.
  split.
  - apply (disconnect_unregistered 5%nat 7 sample_world
             sample_world_no_empty_entry).
    apply (bool_decide_unpack _); vm_compute; exact I.
  - apply (disconnect_unregistered 5%nat 8 sample_world
             sample_world_no_empty_entry).
    apply (bool_decide_unpack _); vm_compute; exact I.
Defined.

Lemma connect_disconnect_round_trip_witness :
  ∃ w', (ConnectionManager.connect 5%nat 7 ;;;
         ConnectionManager.disconnect 5%nat 7) sample_world = (Ok tt, w') ∧
    active_connections w' = active_connections sample_world.
Proof.
  assert (5%nat ∉ connections_of sample_world 7) as Hnew
    by (apply (bool_decide_unpack _); vm_compute; exact I).
  destruct (connect_disconnect_round_trip 5%nat 7 sample_world
              sample_world_no_empty_entry Hnew) as (w' & Hrun & Hreg & _).
  exists w'. split; [exact Hrun|exact Hreg].
Defined.


Lemma list_notifications_pages_witness :
  Api.list_notifications 1 1 false (mkUser 7 true) sample_world
  = (Ok sample_page, sample_world) ∧
  (Api.items sample_page = [] ↔ Api.total_pages sample_page < 1).
Proof.
  assert (Api.list_notifications 1 1 false (mkUser 7 true) sample_world
          = (Ok sample_page, sample_world)) as Hrun by reflexivity.
  split; [exact Hrun|].
  assert (1 ≤ 1) as Hone by lia.
  exact (proj2 (proj2 (proj2 (proj2
    (list_notifications_pages 1 1 false (mkUser 7 true) sample_world
       sample_world sample_page Hone Hone Hrun))))).
Defined.

Lemma unread_listing_total_is_unread_count_witness :
  NotificationService.get_user_notifications 7 true 1 20 sample_world
  = (Ok ([row2], 1), sample_world) ∧
  NotificationService.get_unread_count 7 sample_world = (Ok 1, sample_world) ∧
  1 = 1.
Proof.
  assert (NotificationService.get_user_notifications 7 true 1 20 sample_world
          = (Ok ([row2], 1), sample_world)) as Hlist by reflexivity.
  assert (NotificationService.get_unread_count 7 sample_world
          = (Ok 1, sample_world)) as Hcount by reflexivity.
  split; [exact Hlist|]. split; [exact Hcount|].
  exact (unread_listing_total_is_unread_count 7 1 20 sample_world sample_world
           sample_world [row2] 1 1 Hlist Hcount).
Defined.

Lemma delete_by_owner_witness :
  ∃ w',
    NotificationService.delete 2 7 sample_world = (Ok true, w') ∧
    NotificationService.get_by_id 2 w' = (Ok None, w') ∧
    NotificationService.delete 2 7 w' = (Ok false, w') ∧
    NotificationService.get_unread_count 7 w' = (Ok 0, w').
Proof.
  assert (store_up sample_world) as Hup by (intros op; reflexivity).
  assert (keys_are_ids sample_world) as Hkeys
    by (apply (bool_decide_unpack _); vm_compute; exact I).
  assert (notifications (db sample_world) !! 2 = Some row2) as Hrow
    by reflexivity.
  destruct (delete_by_owner 50 2 row2 (mkUser 7 true) sample_world Hup Hkeys
              Hrow eq_refl)
    as (w' & count & Hrun & _ & Hbefore & Hafter & Hgone & Hagain & _).
  exists w'. split; [exact Hrun|]. split; [exact Hgone|].
  split; [exact Hagain|].
  assert (count = 1) as -> by (vm_compute in Hbefore; congruence).
  exact Hafter.
Defined.

Lemma mark_unread_as_read_witness :
  ∃ r w',
    NotificationService.mark_as_read 50 2 7 sample_world = (Ok (Some r), w') ∧
    is_read r = true ∧ read_at r = Some 50 ∧
    notifications (db w') !! 1 = Some row1.
Proof.
  assert (store_up sample_world) as Hup by (intros op; reflexivity).
  assert (keys_are_ids sample_world) as Hkeys
    by (apply (bool_decide_unpack _); vm_compute; exact I).
  assert (notifications (db sample_world) !! 2 = Some row2) as Hrow
    by reflexivity.
  destruct (mark_unread_as_read 50 2 row2 7 sample_world Hup Hkeys Hrow
              eq_refl eq_refl)
    as (r & w' & count & Hrun & Hread & Hat & _ & Hothers & _).
  exists r, w'. split; [exact Hrun|]. split; [exact Hread|].
  split; [exact Hat|]. rewrite Hothers by lia. reflexivity.
Defined.



Lemma convenience_constructors_witness :
  helper_result
    (NotificationService.notify_task_completed 100 42 "Ship release" 7 "alice"
       quiet_world)
    TASK_COMPLETED "Task Completed" 7 100 (Some 42) None "alice"
    "Ship release" ∧
  helper_result
    (NotificationService.notify_team_invited 100 3 "Core" 7 "alice"
       quiet_world)
    TEAM_INVITED "Team Invitation" 7 100 None (Some 3) "alice" "Core".
Proof.
  assert (store_up quiet_world) as Hup by (intros op; reflexivity).
  split.
  - exact (proj1 (proj2 (proj2
      (convenience_constructors 100 42 7 "alice" "Ship release" quiet_world
         Hup)))).
  - exact (proj2 (proj2 (proj2
      (convenience_constructors 100 3 7 "alice" "Core" quiet_world Hup)))).
Defined.

Lemma creates_in_order_witness :
  ∃ r1 r2 w1 w2,
    NotificationService.create 100 sample_create sample_world = (Ok r1, w1) ∧
    NotificationService.create 101 sample_create w1 = (Ok r2, w2) ∧
    id r2 = id r1 + 1.
Proof.
  assert (store_up sample_world) as Hup by (intros op; reflexivity).
  assert (fresh_seq sample_world) as Hfresh
    by (apply (bool_decide_unpack _); vm_compute; exact I).
  destruct (creates_in_order 100 101 sample_create sample_create sample_world
              Hup Hfresh)
    as (r1 & r2 & w1 & w2 & Hrun1 & Hrun2 & Hid & _).
  exists r1, r2, w1, w2. split; [exact Hrun1|]. split; [exact Hrun2|exact Hid].
Defined.



Lemma get_current_user_sound_witness :
  Deps.get_current_user sample_decode sample_int "good" sample_world
  = (Ok (mkUser 7 true), sample_world) ∧
  u_is_active (mkUser 7 true) = true.
Proof.
  assert (Deps.get_current_user sample_decode sample_int "good" sample_world
          = (Ok (mkUser 7 true), sample_world)) as Hrun by reflexivity.
  split; [exact Hrun|].
  exact (proj1 (proj2 (get_current_user_sound sample_decode sample_int "good"
                         sample_world sample_world (mkUser 7 true) Hrun))).
Defined.

Lemma live_channel_accepts_http_tokens_witness :
  Api.get_current_user_ws sample_decode sample_int 9%nat good_request
  = (Ok (Some (mkUser 7 true)), good_request).
Proof.
  assert (Deps.get_current_user sample_decode sample_int "good" good_request
          = (Ok (mkUser 7 true), good_request)) as Hrun by reflexivity.
  assert ("good" ≠ EmptyString) as Hne by discriminate.
  exact (live_channel_accepts_http_tokens sample_decode sample_int "good"
           9%nat good_request good_request (mkUser 7 true) Hrun Hne eq_refl).
Defined.

Lemma live_channel_checks_less_witness :
  Api.get_current_user_ws sample_decode sample_int 9%nat renew_request
  = (Ok (Some (mkUser 7 true)), renew_request) ∧
  Deps.get_current_user sample_decode sample_int "renew" renew_request
  = (Raise Deps.credentials_exception, renew_request).
Proof.
  assert ("renew" ≠ EmptyString) as Hne by discriminate.
  exact (live_channel_checks_less sample_decode sample_int "renew" "7" 7
           (<["sub" := "7"]> (<["type" := "refresh"]> ∅)) (mkUser 7 true)
           9%nat renew_request eq_refl Hne eq_refl eq_refl eq_refl eq_refl
           eq_refl).
Defined.

Lemma unread_count_endpoints_witness :
  ∃ k w', Api.get_unread_count (mkUser 7 true) sample_world
          = (Ok {[ "count" := k ]}, sample_world) ∧
    Api.get_unread_count (mkUser 7 true) w' = (Ok {[ "count" := 0 ]}, w').
Proof.
  assert (store_up sample_world) as Hup by (intros op; reflexivity).
  destruct (unread_count_endpoints 50 (mkUser 7 true) sample_world Hup)
    as (k & w' & _ & Hbefore & _ & Hafter).
  exists k, w'. split; [exact Hbefore|exact Hafter].
Defined.

Example mark_all_read_message :
  (Api.mark_all_as_read 50 (mkUser 7 true) sample_world).1
  = Ok "Marked 1 notifications as read".
Proof. vm_compute. reflexivity. Qed.

Lemma value_injective_witness : TEAM_INVITED = TEAM_INVITED.
Proof. exact (value_injective TEAM_INVITED TEAM_INVITED eq_refl). Defined.
